(** * AdminLogin: the admin sign-in flow of [src/components/admin/AdminLogin.tsx]

    The component's [onSubmit] handler is embedded as a program in a small
    free monad ([Prog]) whose nodes are the calls the handler makes on its
    collaborators: React state, the console, [AdminApi.login], the token
    store, [localStorage], [window.dispatchEvent], the socket service, the
    toast and the [onLoginSuccess] callback.  The handler suspends at
    [await AdminApi.login(...)]; the browser side (button, pending promise,
    timers, clock) is a [World] driven by [Event]s.

    Modelling conventions.
    - Strings are [string]; [s.length] is [String.length s] and
      [s.substring(0, n)] is [String.substring 0 n s] (bytes stand for
      UTF-16 code units).
    - An optional or nullish property is an [option]; an object is truthy,
      a string is truthy when it is not empty.
    - [setAdminToken], [localStorage.setItem], [JSON.stringify],
      [dispatchEvent], [toast], the socket service and the two dynamic
      imports return normally, and [socketService.connect()] opens the
      connection at once; [AdminApi.login] may resolve or reject.  The
      [onLoginSuccess] prop returns in [onSubmit] and returns or throws in
      [onSubmit_with].
    - [handleSubmit] runs the zod schema and calls [onSubmit] within the same
      browser task as the submit event.
    - [World], [step] and [run] describe a page that React re-renders before
      each event, so that the button always shows the current [isLoading];
      [Page], [page_step] and [page_run] keep the rendered button apart from
      the state and make the render an event of its own.
    - The handler is resumed once, when the login call settles: the two
      [await import(...)] are recorded as effects and no other event is
      taken between them and the end of the handler.
    - Time is a logical clock in milliseconds, advanced by [Elapse]. *)

From Stdlib Require Import String Ascii List Bool Arith Lia.
Import ListNotations.
Open Scope string_scope.
Open Scope list_scope.

(** ** Data *)

(** [AdminLoginValues = z.infer<typeof adminLoginSchema>] *)
Record AdminLoginValues : Type := mkValues {
  email : string;
  password : string
}.

(** Modelled from the spec: the principal record of [@/services/api]
    ("{id, displayName, role, ...other profile fields}"); the declaration is
    not part of the component's file.  [role = None] is a record without a
    [role] property. *)
Record Principal : Type := mkPrincipal {
  role : option string;
  id : option nat;
  displayName : option string;
  profile : list (string * string)
}.

(** Modelled from the spec: the response of [AdminApi.login],
    "{success: bool, data?: {token, user?, admin?}, error?: string}". *)
Record LoginData : Type := mkData {
  token : option string;
  user : option Principal;
  admin : option Principal
}.

Record ApiResponse : Type := mkResponse {
  success : bool;
  data : option LoginData;
  error : option string
}.

(** What a [throw] or a rejected promise carries: an [Error] with its
    message, or any other value. *)
Inductive Thrown : Type :=
| ErrorObj (message : string)
| NonError (value : string).

Inductive LoginOutcome : Type :=
| Resolved (response : ApiResponse)
| Rejected (reason : Thrown).

(** The objects handed to [console.log] and [console.error], one constructor
    per call site of [onSubmit]. *)
Inductive LogPayload : Type :=
| AttemptInfo (email : string) (hasPassword : bool)
| ResponseInfo (success hasData hasToken : bool)
               (userRole adminRole : option string)
| CompleteInfo (fullResponse : ApiResponse) (hasToken hasAdmin hasUser : bool)
               (tokenValue : string) (responseKeys dataKeys : list string)
| SelectedInfo (selectedUser : option Principal) (role : option string)
               (hasRequiredRole : bool)
| NoUserData (data : LoginData)
| AccessDenied (userRole : option string) (expectedRole : string)
               (userData : Principal)
| LoginError (error : Thrown).

Inductive ToastVariant : Type := DefaultVariant | Destructive.

(** The callbacks handed to [setTimeout]. *)
Inductive Callback : Type := ConnectSocket.

(** One observable call on a collaborator. *)
Inductive Effect : Type :=
| SetIsLoading (b : bool)
| ConsoleLog (p : LogPayload)
| ConsoleError (p : LogPayload)
| AdminApi_login (email password : string)
| DynamicImport (module : string)
| SetAdminToken (token : string)
| LocalStorage_setItem (key : string) (json_of : Principal)
| DispatchEvent (name : string) (detail_user : Principal) (detail_token : string)
| IsSocketConnected (result : bool)
| Socket_disconnect
| SetTimeout (cb : Callback) (ms : nat)
| Socket_connect
| Toast (variant : ToastVariant) (title description : string)
| OnLoginSuccess
| FormMessage (field message : string)
| UnhandledRejection (reason : Thrown).

(** ** Programs *)

(** A handler body: it returns, throws, performs an effect, awaits the
    outcome of [AdminApi.login], or reads the socket's connection status. *)
Inductive Prog (A : Type) : Type :=
| Ret (a : A)
| Throw (t : Thrown)
| Emit (e : Effect) (k : Prog A)
| AwaitLogin (email password : string) (k : LoginOutcome -> Prog A)
| AskSocket (k : bool -> Prog A).

Arguments Ret {A} a.
Arguments Throw {A} t.
Arguments Emit {A} e k.
Arguments AwaitLogin {A} email password k.
Arguments AskSocket {A} k.

Fixpoint bind {A B : Type} (m : Prog A) (f : A -> Prog B) : Prog B :=
  match m with
  | Ret a => f a
  | Throw t => Throw t
  | Emit e k => Emit e (bind k f)
  | AwaitLogin em pw k => AwaitLogin em pw (fun o => bind (k o) f)
  | AskSocket k => AskSocket (fun b => bind (k b) f)
  end.

(** [try { body } catch (error) { handler error }] *)
Fixpoint try_catch {A : Type} (body : Prog A) (handler : Thrown -> Prog A)
  : Prog A :=
  match body with
  | Ret a => Ret a
  | Throw t => handler t
  | Emit e k => Emit e (try_catch k handler)
  | AwaitLogin em pw k => AwaitLogin em pw (fun o => try_catch (k o) handler)
  | AskSocket k => AskSocket (fun b => try_catch (k b) handler)
  end.

(** [try { body } finally { fin }]: [fin] runs on both exits and the exit
    of [body] is kept, unless [fin] itself throws. *)
Fixpoint try_finally {A : Type} (body : Prog A) (fin : Prog unit) : Prog A :=
  match body with
  | Ret a => bind fin (fun _ => Ret a)
  | Throw t => bind fin (fun _ => Throw t)
  | Emit e k => Emit e (try_finally k fin)
  | AwaitLogin em pw k => AwaitLogin em pw (fun o => try_finally (k o) fin)
  | AskSocket k => AskSocket (fun b => try_finally (k b) fin)
  end.

Declare Scope prog_scope.
Delimit Scope prog_scope with prog.
Notation "x <- m ;; k" := (bind m (fun x => k))
  (at level 61, m at next level, right associativity) : prog_scope.
Notation "m ;; k" := (bind m (fun _ => k))
  (at level 61, right associativity) : prog_scope.
Open Scope prog_scope.

Definition emit (e : Effect) : Prog unit := Emit e (Ret tt).
Definition throw {A : Type} (t : Thrown) : Prog A := Throw t.

(** [await AdminApi.login({email, password})]: a rejection is thrown at the
    await. *)
Definition await_login (em pw : string) : Prog ApiResponse :=
  AwaitLogin em pw (fun o =>
    match o with
    | Resolved r => Ret r
    | Rejected t => Throw t
    end).

Definition isSocketConnected : Prog bool := AskSocket (fun b => Ret b).

Definition when (b : bool) (m : Prog unit) : Prog unit :=
  if b then m else Ret tt.

(** ** JavaScript operators used by the handler *)

(** [!!s] for a string *)
Definition truthy_string (s : string) : bool :=
  match s with
  | EmptyString => false
  | String _ _ => true
  end.

(** [!!x] for an optional string *)
Definition truthy_opt_string (o : option string) : bool :=
  match o with
  | Some s => truthy_string s
  | None => false
  end.

(** [!!x] for an optional object *)
Definition present {A : Type} (o : option A) : bool :=
  match o with
  | Some _ => true
  | None => false
  end.

(** [a || b] on optional objects *)
Definition or_else {A : Type} (a b : option A) : option A :=
  match a with
  | Some x => Some x
  | None => b
  end.

(** [s || dflt] on an optional string: an absent or empty [s] gives [dflt] *)
Definition or_default (s : option string) (dflt : string) : string :=
  match s with
  | Some (String c r) => String c r
  | _ => dflt
  end.

(** [response.data?.token] *)
Definition data_token (r : ApiResponse) : option string :=
  match data r with
  | Some d => token d
  | None => None
  end.

(** [response.data?.user?.role] and [response.data?.admin?.role] *)
Definition data_role (sel : LoginData -> option Principal) (r : ApiResponse)
  : option string :=
  match data r with
  | Some d => match sel d with
              | Some p => role p
              | None => None
              end
  | None => None
  end.

(** [x === 'admin'] *)
Definition is_admin_role (r : option string) : bool :=
  match r with
  | Some s => String.eqb s "admin"
  | None => false
  end.

(** [Object.keys] of the response and of its [data]: the properties that
    are present, listed in the order of the declaration above.  The order in
    which the server's JSON lists them, and properties beyond the declared
    ones, are not modelled; the lists occur in one console entry only. *)
Definition response_keys (r : ApiResponse) : list string :=
  ["success"] ++ (if present (data r) then ["data"] else [])
              ++ (if present (error r) then ["error"] else []).

Definition data_keys (d : LoginData) : list string :=
  (if present (token d) then ["token"] else [])
    ++ (if present (user d) then ["user"] else [])
    ++ (if present (admin d) then ["admin"] else []).

(** The test [response.success && response.data?.token]; when it holds the
    branch works on [response.data] and its non-empty token. *)
Definition success_with_token (r : ApiResponse) : option (LoginData * string) :=
  if success r then
    match data r with
    | Some d => match token d with
                | Some t => if truthy_string t then Some (d, t) else None
                | None => None
                end
    | None => None
    end
  else None.

(** ** The handler *)

(** The body of [setTimeout(() => { socketService.connect(); }, 100)] *)
Definition run_callback (cb : Callback) : Prog unit :=
  match cb with
  | ConnectSocket => emit Socket_connect
  end.

(** What a call of the [onLoginSuccess] prop does: the prop is supplied by
    the caller of the component, and its call returns or throws. *)
Inductive CallbackOutcome : Type :=
| Returns
| Throws (error : Thrown).

(** [onLoginSuccess()] *)
Definition call_onLoginSuccess (callback : CallbackOutcome) : Prog unit :=
  Emit OnLoginSuccess
       (match callback with
        | Returns => Ret tt
        | Throws error => Throw error
        end).

(** The statements of the [try] block that follow
    [const response = await AdminApi.login(...)]. *)
Definition onSubmit_response_with (callback : CallbackOutcome)
           (response : ApiResponse) : Prog unit :=
  emit (ConsoleLog (ResponseInfo (success response)
                                 (present (data response))
                                 (truthy_opt_string (data_token response))
                                 (data_role user response)
                                 (data_role admin response))) ;;
  match success_with_token response with
  | Some (d, tok) =>
      emit (ConsoleLog (CompleteInfo response
                          (truthy_string tok)
                          (present (admin d))
                          (present (user d))
                          (String.append (String.substring 0 20 tok) "...")
                          (response_keys response)
                          (data_keys d))) ;;
      (* Backend returns both user and admin objects - prefer admin,
         fallback to user *)
      let adminUser := or_else (admin d) (user d) in
      emit (ConsoleLog (SelectedInfo adminUser
                          (match adminUser with
                           | Some u => role u
                           | None => None
                           end)
                          (match adminUser with
                           | Some u => is_admin_role (role u)
                           | None => false
                           end))) ;;
      match adminUser with
      | None =>
          emit (ConsoleError (NoUserData d)) ;;
          throw (ErrorObj "Invalid response: missing user data")
      | Some adminUser =>
          (if negb (is_admin_role (role adminUser)) then
             emit (ConsoleError (AccessDenied (role adminUser) "admin"
                                              adminUser)) ;;
             throw (ErrorObj "Access denied. Admin privileges required.")
           else Ret tt) ;;
          (* Store admin token using centralized function *)
          emit (DynamicImport "@/services/api") ;;
          emit (SetAdminToken tok) ;;
          emit (LocalStorage_setItem "admin_user" adminUser) ;;
          (* Update user context with admin user *)
          emit (DispatchEvent "adminLoginSuccess" adminUser tok) ;;
          (* Force socket service to reconnect with new admin token *)
          emit (DynamicImport "@/services/socket") ;;
          connected <- isSocketConnected ;;
          when connected (emit Socket_disconnect) ;;
          emit (SetTimeout ConnectSocket 100) ;;
          emit (Toast DefaultVariant "Admin Access Granted"
                      "Welcome to the admin panel.") ;;
          call_onLoginSuccess callback
      end
  | None =>
      throw (ErrorObj (or_default (error response)
               "Invalid admin credentials or insufficient permissions"))
  end.

(** The [try] block of [onSubmit]. *)
Definition onSubmit_try_with (callback : CallbackOutcome)
           (values : AdminLoginValues) : Prog unit :=
  emit (ConsoleLog (AttemptInfo (email values)
                                (truthy_string (password values)))) ;;
  response <- await_login (email values) (password values) ;;
  onSubmit_response_with callback response.

(** The [catch (error)] block. *)
Definition onSubmit_catch (error : Thrown) : Prog unit :=
  emit (ConsoleError (LoginError error)) ;;
  emit (Toast Destructive "Login failed"
          (match error with
           | ErrorObj message => message
           | NonError _ => "An unexpected error occurred."
           end)).

(** [onSubmit] of a component whose [onLoginSuccess] prop behaves as
    [callback]. *)
Definition onSubmit_with (callback : CallbackOutcome)
           (values : AdminLoginValues) : Prog unit :=
  emit (SetIsLoading true) ;;
  try_finally
    (try_catch (onSubmit_try_with callback values) onSubmit_catch)
    (emit (SetIsLoading false)).

(** The handler with a prop that returns. *)
Definition onSubmit_response : ApiResponse -> Prog unit :=
  onSubmit_response_with Returns.

Definition onSubmit_try : AdminLoginValues -> Prog unit :=
  onSubmit_try_with Returns.

Definition onSubmit : AdminLoginValues -> Prog unit :=
  onSubmit_with Returns.

(** ** The browser side *)

(** [isLoading] is the React state; [awaiting] holds the continuations of the
    handler runs suspended at [await AdminApi.login(...)], oldest first;
    [timers] holds the due time and callback of each pending [setTimeout];
    [trace] lists the effects performed so far, oldest first. *)
Record World : Type := mkWorld {
  isLoading : bool;
  socketConnected : bool;
  now : nat;
  awaiting : list (LoginOutcome -> Prog unit);
  timers : list (nat * Callback);
  trace : list Effect
}.

Definition record_effect (e : Effect) (w : World) : World :=
  match w with
  | mkWorld l c n a tm tr => mkWorld l c n a tm (tr ++ [e])
  end.

(** An effect is recorded and changes the part of the world it acts on. *)
Definition perform (e : Effect) (w : World) : World :=
  match w with
  | mkWorld l c n a tm tr =>
      match e with
      | SetIsLoading b => mkWorld b c n a tm (tr ++ [e])
      | Socket_disconnect => mkWorld l false n a tm (tr ++ [e])
      | Socket_connect => mkWorld l true n a tm (tr ++ [e])
      | SetTimeout cb ms => mkWorld l c n a (tm ++ [(n + ms, cb)]) (tr ++ [e])
      | _ => mkWorld l c n a tm (tr ++ [e])
      end
  end.

Definition suspend (k : LoginOutcome -> Prog unit) (w : World) : World :=
  match w with
  | mkWorld l c n a tm tr => mkWorld l c n (a ++ [k]) tm tr
  end.

(** Runs a handler until it finishes or suspends at the login call.  A throw
    that reaches the end of the handler is an unhandled rejection. *)
Fixpoint exec (p : Prog unit) (w : World) : World :=
  match p with
  | Ret _ => w
  | Throw t => record_effect (UnhandledRejection t) w
  | Emit e k => exec k (perform e w)
  | AwaitLogin em pw k => suspend k (record_effect (AdminApi_login em pw) w)
  | AskSocket k =>
      exec (k (socketConnected w))
           (record_effect (IsSocketConnected (socketConnected w)) w)
  end.

Inductive Event : Type :=
| Submit (values : AdminLoginValues)
| LoginSettles (outcome : LoginOutcome)
| Elapse (ms : nat).

(** A timer is due once the clock has reached its due time. *)
Definition is_due (t : nat) (timer : nat * Callback) : bool :=
  Nat.leb (fst timer) t.

(** The clock advances by [ms]; the timers that are due fire in the order in
    which they were set. *)
Definition elapse (ms : nat) (w : World) : World :=
  let t := now w + ms in
  let due := filter (is_due t) (timers w) in
  let later := filter (fun timer => negb (is_due t timer)) (timers w) in
  fold_left (fun w' timer => exec (run_callback (snd timer)) w') due
    (mkWorld (isLoading w) (socketConnected w) t (awaiting w) later (trace w)).

(** The oldest pending login call settles and its handler run resumes. *)
Definition settle (o : LoginOutcome) (w : World) : World :=
  match awaiting w with
  | [] => w
  | k :: rest =>
      exec (k o)
           (mkWorld (isLoading w) (socketConnected w) (now w) rest (timers w)
                    (trace w))
  end.

Section Form.

(** zod's [z.string().email()] check; the library is not part of the
    repository. *)
Variable is_email : string -> bool.

(** [adminLoginSchema]: the failing fields with their messages. *)
Definition adminLoginSchema (values : AdminLoginValues)
  : list (string * string) :=
  (if is_email (email values) then []
   else [("email", "Please enter a valid email address.")])
  ++
  (if Nat.leb 6 (String.length (password values)) then []
   else [("password", "Password must be at least 6 characters.")]).

Fixpoint show_errors (errors : list (string * string)) : Prog unit :=
  match errors with
  | [] => Ret tt
  | (field, message) :: rest =>
      Emit (FormMessage field message) (show_errors rest)
  end.

(** [form.handleSubmit(onSubmit)] with [zodResolver(adminLoginSchema)]:
    [onSubmit] is called only with values that pass the schema; otherwise
    each failing field shows its message. *)
Definition handleSubmit (values : AdminLoginValues) : Prog unit :=
  match adminLoginSchema values with
  | [] => onSubmit values
  | errors => show_errors errors
  end.

(** A submit event on a page that React has re-rendered since the loading
    flag last changed, so that the button shows the current [isLoading]; it
    reaches the form only while the button is enabled.  [page_step] below
    keeps the rendered button apart from the state. *)
Definition submit (values : AdminLoginValues) (w : World) : World :=
  if isLoading w then w else exec (handleSubmit values) w.

Definition step (w : World) (ev : Event) : World :=
  match ev with
  | Submit values => submit values w
  | LoginSettles o => settle o w
  | Elapse ms => elapse ms w
  end.

Definition run (events : list Event) (w : World) : World :=
  fold_left step events w.

End Form.

(** The page as first rendered: nothing pending, nothing performed. *)
Definition initial (connected : bool) : World :=
  mkWorld false connected 0 [] [] [].

(** ** The page with its rendered button *)

(** The DOM keeps the button as React last rendered it: [buttonDisabled] is
    the value that [disabled={isLoading}] had at the last render, and it
    lags behind the state [isLoading] of [world] until the next render. *)
Record Page : Type := mkPage {
  world : World;
  buttonDisabled : bool
}.

Inductive PageEvent : Type :=
| Click (values : AdminLoginValues)
| Rerender
| Settles (outcome : LoginOutcome)
| Tick (ms : nat).

Section PageModel.

Variable is_email : string -> bool.

(** The behaviour of the [onLoginSuccess] prop the component was given. *)
Variable callback : CallbackOutcome.

Definition handleSubmit_with (values : AdminLoginValues) : Prog unit :=
  match adminLoginSchema is_email values with
  | [] => onSubmit_with callback values
  | errors => show_errors errors
  end.

(** A click submits the form unless the button is rendered disabled;
    [onSubmit] itself does not look at [isLoading].  A render copies the
    state into the button. *)
Definition page_step (pg : Page) (ev : PageEvent) : Page :=
  match ev with
  | Click values =>
      if buttonDisabled pg then pg
      else mkPage (exec (handleSubmit_with values) (world pg))
                  (buttonDisabled pg)
  | Rerender => mkPage (world pg) (isLoading (world pg))
  | Settles o => mkPage (settle o (world pg)) (buttonDisabled pg)
  | Tick ms => mkPage (elapse ms (world pg)) (buttonDisabled pg)
  end.

Definition page_run (events : list PageEvent) (pg : Page) : Page :=
  fold_left page_step events pg.


End PageModel.

Definition initial_page (connected : bool) : Page :=
  mkPage (initial connected) false.

(** The event of the page that stands for an event of [step]. *)
Definition page_event (ev : Event) : PageEvent :=
  match ev with
  | Submit values => Click values
  | LoginSettles o => Settles o
  | Elapse ms => Tick ms
  end.

(** An [is_email] for evaluating examples: a non-empty local part, one [@],
    and a dot inside the domain. *)
Fixpoint has_dot_inside (s : string) : bool :=
  match s with
  | String _ (String "."%char (String _ _)) => true
  | String _ r => has_dot_inside r
  | EmptyString => false
  end.

Fixpoint after_at (s : string) : option string :=
  match s with
  | EmptyString => None
  | String "@"%char r => Some r
  | String _ r => after_at r
  end.

Definition sample_is_email (s : string) : bool :=
  match s with
  | EmptyString => false
  | String "@"%char _ => false
  | String _ _ =>
      match after_at s with
      | Some domain =>
          match after_at domain with
          | None => has_dot_inside domain
          | Some _ => false
          end
      | None => false
      end
  end.

(** ** Derived notions used in the statements *)

(** The run of [onSubmit] that is suspended at the login call, resumed with
    the outcome of the call. *)
Definition onSubmit_resumed_with (callback : CallbackOutcome)
           (o : LoginOutcome) : Prog unit :=
  try_finally
    (try_catch
       (response <- match o with
                    | Resolved r => Ret r
                    | Rejected t => Throw t
                    end ;;
        onSubmit_response_with callback response)
       onSubmit_catch)
    (emit (SetIsLoading false)).

Definition onSubmit_resumed : LoginOutcome -> Prog unit :=
  onSubmit_resumed_with Returns.

(** [SessionStore.persist]: the token store and the [admin_user] entry. *)
Definition is_persist (e : Effect) : bool :=
  match e with
  | SetAdminToken _ | LocalStorage_setItem _ _ => true
  | _ => false
  end.

(** [SessionEventBus.publish] *)
Definition is_publish (e : Effect) : bool :=
  match e with
  | DispatchEvent _ _ _ => true
  | _ => false
  end.

(** [AuthClient.login] *)
Definition is_login_call (e : Effect) : bool :=
  match e with
  | AdminApi_login _ _ => true
  | _ => false
  end.

(** The calls on the realtime connection and on the timer that delays its
    reopening. *)
Definition is_realtime (e : Effect) : bool :=
  match e with
  | IsSocketConnected _ | Socket_disconnect | SetTimeout _ _
  | Socket_connect => true
  | _ => false
  end.

(** The console entry written before the login call. *)
Definition is_attempt_log (e : Effect) : bool :=
  match e with
  | ConsoleLog (AttemptInfo _ _) => true
  | _ => false
  end.

(** What is observable apart from the request sent to [AdminApi.login]. *)
Definition outside_request (t : list Effect) : list Effect :=
  filter (fun e => negb (is_login_call e)) t.

(** What is observable apart from the request and the attempt entry. *)
Definition outside_request_and_attempt (t : list Effect) : list Effect :=
  filter (fun e => negb (is_login_call e || is_attempt_log e)) t.

(** The effects performed between world [w] and a later world [w']. *)
Definition effects_since (w w' : World) : list Effect :=
  skipn (List.length (trace w)) (trace w').

(** The page is idle or exactly one run is suspended at the login call. *)
Definition consistent (w : World) : Prop :=
  (isLoading w = false /\ awaiting w = [])
  \/ (isLoading w = true /\ awaiting w = [onSubmit_resumed]).

(** The messages of the failure notifications shown to the user. *)
Fixpoint failure_reports (t : list Effect) : list string :=
  match t with
  | [] => []
  | Toast Destructive _ description :: rest =>
      description :: failure_reports rest
  | _ :: rest => failure_reports rest
  end.

(** The connection status after an effect. *)
Definition socket_after (e : Effect) (connected : bool) : bool :=
  match e with
  | Socket_disconnect => false
  | Socket_connect => true
  | _ => connected
  end.

(** The effects a handler performs until it finishes or suspends, given the
    connection status it starts with. *)
Fixpoint emitted (p : Prog unit) (connected : bool) : list Effect :=
  match p with
  | Ret _ => []
  | Throw t => [UnhandledRejection t]
  | Emit e k => e :: emitted k (socket_after e connected)
  | AwaitLogin em pw _ => [AdminApi_login em pw]
  | AskSocket k => IsSocketConnected connected :: emitted (k connected) connected
  end.

(** The total time of a sequence of clock advances. *)
Definition total_ms (ds : list nat) : nat := fold_right Nat.add 0 ds.

(** ** The scenarios of the specification, as inputs *)

Definition demo_values : AdminLoginValues := mkValues "admin@x.com" "secret1".

Definition admin_principal : Principal :=
  mkPrincipal (Some "admin") (Some 1) None [].

Definition standard_principal : Principal :=
  mkPrincipal (Some "standard") None None [].

(** Scenario B *)
Definition response_admin : ApiResponse :=
  mkResponse true (Some (mkData (Some "T1") None (Some admin_principal))) None.

(** Scenario C *)
Definition response_standard : ApiResponse :=
  mkResponse true (Some (mkData (Some "T1") (Some standard_principal) None))
             None.

(** Scenario D *)
Definition response_rejected : ApiResponse :=
  mkResponse false None (Some "invalid credentials").

(** Scenario E *)
Definition response_no_principal : ApiResponse :=
  mkResponse true (Some (mkData (Some "T1") None None)) None.

(** Both principal fields present, with different roles. *)
Definition response_both : ApiResponse :=
  mkResponse true
    (Some (mkData (Some "T1") (Some standard_principal) (Some admin_principal)))
    None.

(** A success flag without a token. *)
Definition response_no_token : ApiResponse :=
  mkResponse true (Some (mkData None None (Some admin_principal))) None.

(** ** Counting effects, the stored entry, the form as first rendered *)

(** How often an effect of a kind occurs in a trace. *)
Definition count (f : Effect -> bool) (t : list Effect) : nat :=
  List.length (filter f t).

Definition is_loading_on (e : Effect) : bool :=
  match e with
  | SetIsLoading true => true
  | _ => false
  end.

Definition is_loading_off (e : Effect) : bool :=
  match e with
  | SetIsLoading false => true
  | _ => false
  end.

Definition is_set_token (e : Effect) : bool :=
  match e with
  | SetAdminToken _ => true
  | _ => false
  end.

Definition is_set_item (e : Effect) : bool :=
  match e with
  | LocalStorage_setItem _ _ => true
  | _ => false
  end.

Definition is_callback (e : Effect) : bool :=
  match e with
  | OnLoginSuccess => true
  | _ => false
  end.

Definition is_timeout (e : Effect) : bool :=
  match e with
  | SetTimeout _ _ => true
  | _ => false
  end.



Definition is_toast (e : Effect) : bool :=
  match e with
  | Toast _ _ _ => true
  | _ => false
  end.

Definition is_success_toast (e : Effect) : bool :=
  match e with
  | Toast DefaultVariant _ _ => true
  | _ => false
  end.

Definition is_unhandled (e : Effect) : bool :=
  match e with
  | UnhandledRejection _ => true
  | _ => false
  end.

(** What [localStorage.getItem(key)] holds after the effects of [t], for an
    entry that held [before]: the value of the last [setItem] on that key. *)
Definition localStorage_after (key : string) (before : option Principal)
           (t : list Effect) : option Principal :=
  fold_left (fun held e =>
               match e with
               | LocalStorage_setItem k p =>
                   if String.eqb k key then Some p else held
               | _ => held
               end)
            t before.

(** [defaultValues] of [useForm]. *)
Definition defaultValues : AdminLoginValues :=
  mkValues "yekinirasheed2002@gmail.com" "".

(** A click on the submit button, as opposed to the other events. *)
Definition is_submit (ev : Event) : bool :=
  match ev with
  | Submit _ => true
  | _ => false
  end.



(** The bookkeeping of the loading flag that holds whatever the order of
    clicks and renders: one login call per [setIsLoading(true)], one
    [setIsLoading(false)] per completed run. *)
Definition runs_accounted (callback : CallbackOutcome) (w : World) : Prop :=
  Forall (fun k => k = onSubmit_resumed_with callback) (awaiting w)
  /\ count is_login_call (trace w) = count is_loading_on (trace w)
  /\ count is_loading_on (trace w) =
     count is_loading_off (trace w) + List.length (awaiting w)
  /\ count is_unhandled (trace w) = 0
  /\ (isLoading w = true -> awaiting w <> []).

(** ** Execution lemmas *)

Ltac flatten_trace := repeat rewrite <- app_assoc; simpl app.

Lemma success_with_token_intro (r : ApiResponse) (d : LoginData) (tok : string) :
  success r = true -> data r = Some d -> token d = Some tok -> tok <> "" ->
  success_with_token r = Some (d, tok).
Proof.
  intros Hs Hd Ht Hne. unfold success_with_token.
  rewrite Hs, Hd, Ht. destruct tok as [|c rest]; [congruence | reflexivity].
Qed.

Lemma success_with_token_none (r : ApiResponse) :
  success r = false \/ truthy_opt_string (data_token r) = false ->
  success_with_token r = None.
Proof.
  unfold success_with_token, data_token, truthy_opt_string.
  intros [Hs | Ht].
  - rewrite Hs. reflexivity.
  - destruct (success r); [|reflexivity].
    destruct (data r) as [d|]; [|reflexivity].
    destruct (token d) as [t|]; [|reflexivity].
    simpl in Ht. rewrite Ht. reflexivity.
Qed.

Lemma is_admin_role_true (r : option string) :
  is_admin_role r = true <-> r = Some "admin".
Proof.
  destruct r as [s|]; simpl.
  - rewrite String.eqb_eq. split; congruence.
  - split; discriminate.
Qed.

Lemma is_admin_role_false (r : option string) :
  is_admin_role r = false <-> r <> Some "admin".
Proof.
  rewrite <- is_admin_role_true. destruct (is_admin_role r); split; congruence.
Qed.

(** [onSubmit] up to its suspension at the login call. *)
Lemma exec_onSubmit (values : AdminLoginValues) (w : World) :
  exec (onSubmit values) w =
  mkWorld true (socketConnected w) (now w) (awaiting w ++ [onSubmit_resumed])
          (timers w)
          (trace w ++ [SetIsLoading true;
                       ConsoleLog (AttemptInfo (email values)
                                     (truthy_string (password values)));
                       AdminApi_login (email values) (password values)]).
Proof.
  destruct w as [l c n a tm tr]. cbn. flatten_trace. reflexivity.
Qed.

(** The resumed run when the login call rejects. *)
Lemma exec_resumed_rejected (t : Thrown) (w : World) :
  exec (onSubmit_resumed (Rejected t)) w =
  mkWorld false (socketConnected w) (now w) (awaiting w) (timers w)
          (trace w ++ [ConsoleError (LoginError t);
                       Toast Destructive "Login failed"
                         (match t with
                          | ErrorObj message => message
                          | NonError _ => "An unexpected error occurred."
                          end);
                       SetIsLoading false]).
Proof.
  destruct w as [l c n a tm tr]. cbn. flatten_trace. reflexivity.
Qed.

(** The resumed run when the response fails the test
    [response.success && response.data?.token]. *)
Lemma exec_resumed_no_token (r : ApiResponse) (w : World) :
  success_with_token r = None ->
  exec (onSubmit_resumed (Resolved r)) w =
  mkWorld false (socketConnected w) (now w) (awaiting w) (timers w)
          (trace w ++
           [ConsoleLog (ResponseInfo (success r) (present (data r))
                          (truthy_opt_string (data_token r))
                          (data_role user r) (data_role admin r));
            ConsoleError (LoginError (ErrorObj (or_default (error r)
              "Invalid admin credentials or insufficient permissions")));
            Toast Destructive "Login failed"
              (or_default (error r)
                 "Invalid admin credentials or insufficient permissions");
            SetIsLoading false]).
Proof.
  intros H. destruct w as [l c n a tm tr].
  unfold onSubmit_resumed, onSubmit_resumed_with. cbn [bind]. unfold onSubmit_response, onSubmit_response_with.
  rewrite H. cbn. flatten_trace. reflexivity.
Qed.

(** The resumed run when the response carries a token but neither an
    [admin] nor a [user] record. *)
Lemma exec_resumed_missing_user (r : ApiResponse) (d : LoginData)
      (tok : string) (w : World) :
  success_with_token r = Some (d, tok) ->
  or_else (admin d) (user d) = None ->
  exec (onSubmit_resumed (Resolved r)) w =
  mkWorld false (socketConnected w) (now w) (awaiting w) (timers w)
          (trace w ++
           [ConsoleLog (ResponseInfo (success r) (present (data r))
                          (truthy_opt_string (data_token r))
                          (data_role user r) (data_role admin r));
            ConsoleLog (CompleteInfo r (truthy_string tok) (present (admin d))
                          (present (user d))
                          (String.append (String.substring 0 20 tok) "...")
                          (response_keys r) (data_keys d));
            ConsoleLog (SelectedInfo None None false);
            ConsoleError (NoUserData d);
            ConsoleError (LoginError
                            (ErrorObj "Invalid response: missing user data"));
            Toast Destructive "Login failed"
                  "Invalid response: missing user data";
            SetIsLoading false]).
Proof.
  intros H Hsel. destruct w as [l c n a tm tr].
  unfold onSubmit_resumed, onSubmit_resumed_with. cbn [bind].
  unfold onSubmit_response, onSubmit_response_with. rewrite H, Hsel. cbn. flatten_trace.
  reflexivity.
Qed.

(** The resumed run when the selected principal fails the role test. *)
Lemma exec_resumed_denied (r : ApiResponse) (d : LoginData) (tok : string)
      (p : Principal) (w : World) :
  success_with_token r = Some (d, tok) ->
  or_else (admin d) (user d) = Some p ->
  is_admin_role (role p) = false ->
  exec (onSubmit_resumed (Resolved r)) w =
  mkWorld false (socketConnected w) (now w) (awaiting w) (timers w)
          (trace w ++
           [ConsoleLog (ResponseInfo (success r) (present (data r))
                          (truthy_opt_string (data_token r))
                          (data_role user r) (data_role admin r));
            ConsoleLog (CompleteInfo r (truthy_string tok) (present (admin d))
                          (present (user d))
                          (String.append (String.substring 0 20 tok) "...")
                          (response_keys r) (data_keys d));
            ConsoleLog (SelectedInfo (Some p) (role p) false);
            ConsoleError (AccessDenied (role p) "admin" p);
            ConsoleError (LoginError
                      (ErrorObj "Access denied. Admin privileges required."));
            Toast Destructive "Login failed"
                  "Access denied. Admin privileges required.";
            SetIsLoading false]).
Proof.
  intros H Hsel Hrole. destruct w as [l c n a tm tr].
  unfold onSubmit_resumed, onSubmit_resumed_with. cbn [bind].
  unfold onSubmit_response, onSubmit_response_with. rewrite H, Hsel, Hrole. cbn. flatten_trace.
  reflexivity.
Qed.

(** The resumed run when the selected principal passes the role test. *)
Lemma exec_resumed_granted (r : ApiResponse) (d : LoginData) (tok : string)
      (p : Principal) (w : World) :
  success_with_token r = Some (d, tok) ->
  or_else (admin d) (user d) = Some p ->
  is_admin_role (role p) = true ->
  exec (onSubmit_resumed (Resolved r)) w =
  mkWorld false false (now w) (awaiting w)
          (timers w ++ [(now w + 100, ConnectSocket)])
          (trace w ++
           [ConsoleLog (ResponseInfo (success r) (present (data r))
                          (truthy_opt_string (data_token r))
                          (data_role user r) (data_role admin r));
            ConsoleLog (CompleteInfo r (truthy_string tok) (present (admin d))
                          (present (user d))
                          (String.append (String.substring 0 20 tok) "...")
                          (response_keys r) (data_keys d));
            ConsoleLog (SelectedInfo (Some p) (role p) true);
            DynamicImport "@/services/api";
            SetAdminToken tok;
            LocalStorage_setItem "admin_user" p;
            DispatchEvent "adminLoginSuccess" p tok;
            DynamicImport "@/services/socket";
            IsSocketConnected (socketConnected w)]
           ++ (if socketConnected w then [Socket_disconnect] else [])
           ++ [SetTimeout ConnectSocket 100;
               Toast DefaultVariant "Admin Access Granted"
                     "Welcome to the admin panel.";
               OnLoginSuccess;
               SetIsLoading false]).
Proof.
  intros H Hsel Hrole. destruct w as [l c n a tm tr].
  unfold onSubmit_resumed, onSubmit_resumed_with. cbn [bind].
  unfold onSubmit_response, onSubmit_response_with. rewrite H, Hsel, Hrole.
  destruct c; cbn; flatten_trace; reflexivity.
Qed.

(** Every resumed run ends with the loading flag cleared and leaves the
    other suspended runs alone. *)
Lemma exec_resumed_finishes (o : LoginOutcome) (w : World) :
  isLoading (exec (onSubmit_resumed o) w) = false
  /\ awaiting (exec (onSubmit_resumed o) w) = awaiting w.
Proof.
  destruct o as [r|t].
  - destruct (success_with_token r) as [[d tok]|] eqn:Hst.
    + destruct (or_else (admin d) (user d)) as [p|] eqn:Hsel.
      * destruct (is_admin_role (role p)) eqn:Hrole.
        -- rewrite (exec_resumed_granted r d tok p w Hst Hsel Hrole).
           split; reflexivity.
        -- rewrite (exec_resumed_denied r d tok p w Hst Hsel Hrole).
           split; reflexivity.
      * rewrite (exec_resumed_missing_user r d tok w Hst Hsel).
        split; reflexivity.
    + rewrite (exec_resumed_no_token r w Hst). split; reflexivity.
  - rewrite exec_resumed_rejected. split; reflexivity.
Qed.

(** A timer callback touches neither the loading flag nor the suspended
    runs. *)
Lemma exec_callback_frame (cb : Callback) (w : World) :
  isLoading (exec (run_callback cb) w) = isLoading w
  /\ awaiting (exec (run_callback cb) w) = awaiting w.
Proof. destruct cb, w. split; reflexivity. Qed.

Lemma fire_frame (due : list (nat * Callback)) (w : World) :
  let w' := fold_left (fun w0 timer => exec (run_callback (snd timer)) w0)
                      due w in
  isLoading w' = isLoading w /\ awaiting w' = awaiting w.
Proof.
  revert w. induction due as [|timer due IH]; intros w; simpl.
  - split; reflexivity.
  - destruct (IH (exec (run_callback (snd timer)) w)) as [Hl Ha].
    destruct (exec_callback_frame (snd timer) w) as [Hl' Ha'].
    simpl in Hl, Ha. split; congruence.
Qed.

Section FormFacts.

Variable is_email : string -> bool.

Lemma schema_valid_iff (values : AdminLoginValues) :
  adminLoginSchema is_email values = [] <->
  is_email (email values) = true /\ 6 <= String.length (password values).
Proof.
  unfold adminLoginSchema.
  destruct (is_email (email values));
    destruct (Nat.leb_spec 6 (String.length (password values))); simpl;
    split; try discriminate; try (intros [H1 H2]); try split;
    try reflexivity; try discriminate; try lia.
Qed.

(** The effects of [show_errors]: one message per failing field. *)
Lemma exec_show_errors (errors : list (string * string)) (w : World) :
  exec (show_errors errors) w =
  mkWorld (isLoading w) (socketConnected w) (now w) (awaiting w) (timers w)
          (trace w ++ map (fun fm => FormMessage (fst fm) (snd fm)) errors).
Proof.
  revert w. induction errors as [|[field message] rest IH];
    intros [l c n a tm tr]; simpl.
  - rewrite app_nil_r. reflexivity.
  - rewrite IH. simpl. flatten_trace. reflexivity.
Qed.

Lemma submit_valid (values : AdminLoginValues) (w : World) :
  isLoading w = false ->
  adminLoginSchema is_email values = [] ->
  submit is_email values w =
  mkWorld true (socketConnected w) (now w) (awaiting w ++ [onSubmit_resumed])
          (timers w)
          (trace w ++ [SetIsLoading true;
                       ConsoleLog (AttemptInfo (email values)
                                     (truthy_string (password values)));
                       AdminApi_login (email values) (password values)]).
Proof.
  intros Hl Hv. unfold submit, handleSubmit. rewrite Hl, Hv.
  apply exec_onSubmit.
Qed.

Lemma submit_invalid (values : AdminLoginValues) (w : World) :
  isLoading w = false ->
  adminLoginSchema is_email values <> [] ->
  submit is_email values w =
  mkWorld (isLoading w) (socketConnected w) (now w) (awaiting w) (timers w)
          (trace w ++ map (fun fm => FormMessage (fst fm) (snd fm))
                          (adminLoginSchema is_email values)).
Proof.
  intros Hl Hv. unfold submit, handleSubmit. rewrite Hl.
  destruct (adminLoginSchema is_email values) as [|e errors] eqn:He;
    [congruence|].
  rewrite exec_show_errors, Hl. reflexivity.
Qed.

(** [consistent] is an invariant of the page. *)
Lemma step_consistent (w : World) (ev : Event) :
  consistent w -> consistent (step is_email w ev).
Proof.
  intros Hc. destruct ev as [values | o | ms]; simpl.
  - destruct Hc as [[Hl Ha] | [Hl Ha]].
    + destruct (adminLoginSchema is_email values) as [|e errors] eqn:Hv.
      * rewrite (submit_valid values w Hl Hv). right. simpl.
        rewrite Ha. split; reflexivity.
      * rewrite (submit_invalid values w Hl) by congruence. left. simpl.
        split; assumption.
    + unfold submit. rewrite Hl. right. split; assumption.
  - unfold settle. destruct Hc as [[Hl Ha] | [Hl Ha]]; rewrite Ha.
    + left. split; assumption.
    + left. apply exec_resumed_finishes.
  - unfold elapse.
    match goal with
    | |- consistent (fold_left ?f ?due ?w0) =>
        destruct (fire_frame due w0) as [Hl' Ha']
    end.
    simpl in Hl', Ha'. unfold consistent. rewrite Hl', Ha'. exact Hc.
Qed.

Lemma run_consistent (events : list Event) (w : World) :
  consistent w -> consistent (run is_email events w).
Proof.
  revert w. induction events as [|ev events IH]; intros w Hc; simpl.
  - exact Hc.
  - apply IH. apply step_consistent. exact Hc.
Qed.

End FormFacts.

(** ** Traces *)

Lemma effects_since_app (w w' : World) (suffix : list Effect) :
  trace w' = trace w ++ suffix -> effects_since w w' = suffix.
Proof.
  intros H. unfold effects_since. rewrite H.
  rewrite skipn_app, skipn_all, Nat.sub_diag. reflexivity.
Qed.

Lemma socket_after_perform (e : Effect) (w : World) :
  socketConnected (perform e w) = socket_after e (socketConnected w)
  /\ trace (perform e w) = trace w ++ [e].
Proof. destruct w, e; split; reflexivity. Qed.

(** The trace grows by what the handler emits; nothing already recorded is
    changed. *)
Lemma exec_trace (p : Prog unit) (w : World) :
  trace (exec p w) = trace w ++ emitted p (socketConnected w).
Proof.
  revert w. induction p as [a | t | e k IH | em pw k IH | k IH]; intros w;
    simpl.
  - rewrite app_nil_r. reflexivity.
  - destruct w; reflexivity.
  - rewrite IH. destruct (socket_after_perform e w) as [Hs Ht].
    rewrite Hs, Ht. flatten_trace. reflexivity.
  - destruct w; reflexivity.
  - rewrite IH. destruct w; simpl. flatten_trace. reflexivity.
Qed.

Lemma or_default_spec (s : option string) (dflt : string) :
  or_default s dflt =
  match s with
  | Some m => if truthy_string m then m else dflt
  | None => dflt
  end.
Proof. destruct s as [[|c m]|]; reflexivity. Qed.

(** ** Timers *)

(** Firing a list of timers: each runs [socketService.connect()]. *)
Lemma fire_spec (due : list (nat * Callback)) (w : World) :
  fold_left (fun w' timer => exec (run_callback (snd timer)) w') due w =
  mkWorld (isLoading w)
          (match due with [] => socketConnected w | _ :: _ => true end)
          (now w) (awaiting w) (timers w)
          (trace w ++ repeat Socket_connect (List.length due)).
Proof.
  revert w. induction due as [|[t cb] due IH]; intros [l c n a tm tr].
  - simpl. rewrite app_nil_r. reflexivity.
  - simpl fold_left. rewrite IH. destruct cb. simpl.
    flatten_trace. destruct due; reflexivity.
Qed.

(** An advance of the clock fires the timers that are due, and only those. *)
Lemma elapse_spec (ms : nat) (w : World) :
  elapse ms w =
  mkWorld (isLoading w)
          (match filter (is_due (now w + ms)) (timers w) with
           | [] => socketConnected w
           | _ :: _ => true
           end)
          (now w + ms) (awaiting w)
          (filter (fun timer => negb (is_due (now w + ms) timer)) (timers w))
          (trace w ++
           repeat Socket_connect
             (List.length (filter (is_due (now w + ms)) (timers w)))).
Proof. unfold elapse. rewrite fire_spec. reflexivity. Qed.

Lemma repeat_middle {A : Type} (x : A) (n k : nat) :
  repeat x n ++ x :: repeat x k = x :: repeat x (n + k).
Proof.
  induction n as [|n IH]; simpl; [reflexivity|]. rewrite IH. reflexivity.
Qed.

Section Clock.

Variable is_email : string -> bool.

(** Waiting performs connects only: every timer is still pending or has
    fired, and a connection that is open stays open. *)
Lemma wait_spec (ds : list nat) (w : World) :
  let w' := run is_email (map Elapse ds) w in
  exists fired : nat,
    trace w' = trace w ++ repeat Socket_connect fired
    /\ List.length (timers w') + fired = List.length (timers w)
    /\ (socketConnected w = true \/ 0 < fired -> socketConnected w' = true).
Proof.
  revert w. induction ds as [|ms ds IH]; intros w; simpl.
  - exists 0. simpl. rewrite app_nil_r. repeat split.
    + lia.
    + intros [H | H]; [exact H | lia].
  - rewrite elapse_spec.
    match goal with
    | |- context [run is_email _ ?w0] =>
        destruct (IH w0) as (k & Htr & Hlen & Hsock)
    end.
    simpl in Htr, Hlen, Hsock.
    pose proof (filter_length (is_due (now w + ms)) (timers w)) as Hpart.
    exists (List.length (filter (is_due (now w + ms)) (timers w)) + k).
    rewrite Htr, repeat_app. flatten_trace. repeat split.
    + lia.
    + intros Hopen. apply Hsock.
      destruct (filter (is_due (now w + ms)) (timers w)) as [|x rest].
      * simpl in Hopen. destruct Hopen as [Hopen | Hopen];
          [left; exact Hopen | right; lia].
      * left. reflexivity.
Qed.

(** While the total time stays short of its due time, the timer set last is
    still pending, behind the older timers that are still pending. *)
Lemma wait_before_due (ds : list nat) (older : list (nat * Callback))
      (due : nat) (cb : Callback) (w : World) :
  timers w = older ++ [(due, cb)] -> now w + total_ms ds < due ->
  let w' := run is_email (map Elapse ds) w in
  exists (pending : list (nat * Callback)) (fired : nat),
    timers w' = pending ++ [(due, cb)]
    /\ trace w' = trace w ++ repeat Socket_connect fired
    /\ List.length pending + fired = List.length older.
Proof.
  revert w older. induction ds as [|ms ds IH]; intros w older Ht Hlt;
    simpl in *.
  - exists older, 0. simpl. rewrite app_nil_r. repeat split; [exact Ht | lia].
  - rewrite elapse_spec.
    pose proof (filter_length (is_due (now w + ms)) older) as Hpart.
    assert (Hnot : is_due (now w + ms) (due, cb) = false).
    { unfold is_due. simpl. apply Nat.leb_gt. lia. }
    rewrite Ht, !filter_app. simpl. rewrite Hnot. simpl. rewrite app_nil_r.
    match goal with
    | |- context [run is_email _ ?w0] =>
        destruct (IH w0
                    (filter (fun timer => negb (is_due (now w + ms) timer))
                            older))
          as (pending & k & Htm & Htr & Hlen)
    end.
    + reflexivity.
    + simpl. lia.
    + simpl in Htm, Htr, Hlen.
      exists pending,
        (List.length (filter (is_due (now w + ms)) older) + k).
      rewrite Htm, Htr, repeat_app. flatten_trace.
      split; [reflexivity|]. split; [reflexivity | lia].
Qed.

(** Once the total time reaches its due time, the timer set last has fired:
    it is no longer pending and its connect is in the trace. *)
Lemma wait_until_due (ds : list nat) (older : list (nat * Callback))
      (due : nat) (w : World) :
  timers w = older ++ [(due, ConnectSocket)] -> now w < due ->
  due <= now w + total_ms ds ->
  let w' := run is_email (map Elapse ds) w in
  exists fired : nat,
    trace w' = trace w ++ repeat Socket_connect (S fired)
    /\ List.length (timers w') + fired = List.length older
    /\ socketConnected w' = true.
Proof.
  revert w older. induction ds as [|ms ds IH]; intros w older Ht Hnow Hle;
    simpl in *.
  - lia.
  - rewrite elapse_spec.
    pose proof (filter_length (is_due (now w + ms)) older) as Hpart.
    destruct (Nat.le_gt_cases due (now w + ms)) as [Hdue | Hnot].
    + assert (His : is_due (now w + ms) (due, ConnectSocket) = true).
      { unfold is_due. simpl. apply Nat.leb_le. exact Hdue. }
      rewrite Ht, !filter_app. simpl. rewrite His. simpl.
      rewrite app_nil_r, length_app. simpl.
      match goal with
      | |- context [run is_email _ ?w0] =>
          destruct (wait_spec ds w0) as (k & Htr & Hlen & Hsock)
      end.
      simpl in Htr, Hlen, Hsock.
      exists (List.length (filter (is_due (now w + ms)) older) + k).
      rewrite Htr, <- app_assoc, <- repeat_app.
      replace (List.length (filter (is_due (now w + ms)) older) + 1 + k)
        with (S (List.length (filter (is_due (now w + ms)) older) + k))
        by lia.
      split; [reflexivity|]. split; [lia|].
      apply Hsock. left.
      destruct (filter (is_due (now w + ms)) older); reflexivity.
    + assert (Hisnot : is_due (now w + ms) (due, ConnectSocket) = false).
      { unfold is_due. simpl. apply Nat.leb_gt. exact Hnot. }
      rewrite Ht, !filter_app. simpl. rewrite Hisnot. simpl.
      rewrite app_nil_r.
      match goal with
      | |- context [run is_email _ ?w0] =>
          destruct (IH w0
                      (filter (fun timer => negb (is_due (now w + ms) timer))
                              older))
            as (k & Htr & Hlen & Hsock)
      end.
      * reflexivity.
      * simpl. lia.
      * simpl. lia.
      * simpl in Htr, Hlen, Hsock.
        exists (List.length (filter (is_due (now w + ms)) older) + k).
        rewrite Htr, <- app_assoc, repeat_middle.
        split; [reflexivity|]. split; [lia | exact Hsock].
Qed.

End Clock.

(** ** One submission, from the click to the end of the handler *)

Section Submission.

Variable is_email : string -> bool.

(** A valid submission on an idle page followed by the settling of its login
    call: the handler resumes in the world left by its first half. *)
Lemma submit_then_settle (values : AdminLoginValues) (o : LoginOutcome)
      (w : World) :
  isLoading w = false -> awaiting w = [] ->
  adminLoginSchema is_email values = [] ->
  run is_email [Submit values; LoginSettles o] w =
  exec (onSubmit_resumed o)
       (mkWorld true (socketConnected w) (now w) [] (timers w)
                (trace w ++ [SetIsLoading true;
                             ConsoleLog (AttemptInfo (email values)
                                           (truthy_string (password values)));
                             AdminApi_login (email values) (password values)])).
Proof.
  intros Hl Ha Hv. unfold run. simpl.
  rewrite (submit_valid is_email values w Hl Hv), Ha. reflexivity.
Qed.

(** C1. When the login call succeeds with a token and the selected principal
    has role [admin], the handler performs, in this order and once each: the
    token store write and the [admin_user] write, the [adminLoginSuccess]
    event, the reconnection (status query, disconnect if connected, the timer
    for the later connect), the toast, and then the success callback.  The
    connect itself is still a pending timer when the callback runs. *)
Theorem granted_effects_in_order (values : AdminLoginValues)
        (r : ApiResponse) (d : LoginData) (tok : string) (p : Principal)
        (w : World) :
  isLoading w = false -> awaiting w = [] ->
  adminLoginSchema is_email values = [] ->
  success r = true -> data r = Some d -> token d = Some tok -> tok <> "" ->
  or_else (admin d) (user d) = Some p -> role p = Some "admin" ->
  let w1 := run is_email [Submit values; LoginSettles (Resolved r)] w in
  trace w1 =
    trace w ++
    [SetIsLoading true;
     ConsoleLog (AttemptInfo (email values) (truthy_string (password values)));
     AdminApi_login (email values) (password values);
     ConsoleLog (ResponseInfo (success r) (present (data r))
                   (truthy_opt_string (data_token r))
                   (data_role user r) (data_role admin r));
     ConsoleLog (CompleteInfo r (truthy_string tok) (present (admin d))
                   (present (user d))
                   (String.append (String.substring 0 20 tok) "...")
                   (response_keys r) (data_keys d));
     ConsoleLog (SelectedInfo (Some p) (role p) true);
     DynamicImport "@/services/api";
     SetAdminToken tok;
     LocalStorage_setItem "admin_user" p;
     DispatchEvent "adminLoginSuccess" p tok;
     DynamicImport "@/services/socket";
     IsSocketConnected (socketConnected w)]
    ++ (if socketConnected w then [Socket_disconnect] else [])
    ++ [SetTimeout ConnectSocket 100;
        Toast DefaultVariant "Admin Access Granted"
              "Welcome to the admin panel.";
        OnLoginSuccess;
        SetIsLoading false]
  /\ timers w1 = timers w ++ [(now w + 100, ConnectSocket)]
  /\ awaiting w1 = [] /\ isLoading w1 = false.
Proof.
  intros Hl Ha Hv Hs Hd Ht Hne Hsel Hrole w1. subst w1.
  rewrite (submit_then_settle values (Resolved r) w Hl Ha Hv).
  rewrite (exec_resumed_granted r d tok p _
             (success_with_token_intro r d tok Hs Hd Ht Hne) Hsel
             (proj2 (is_admin_role_true (role p)) Hrole)).
  simpl. flatten_trace. repeat split; reflexivity.
Qed.

(** C2. When the login call succeeds with a token but the selected principal
    has another role, nothing is written to the token store or to
    [localStorage], no event is dispatched, the success callback is not
    called, and the run ends with the failure toast. *)
Theorem non_admin_never_persisted (values : AdminLoginValues)
        (r : ApiResponse) (d : LoginData) (tok : string) (p : Principal)
        (w : World) :
  isLoading w = false -> awaiting w = [] ->
  adminLoginSchema is_email values = [] ->
  success r = true -> data r = Some d -> token d = Some tok -> tok <> "" ->
  or_else (admin d) (user d) = Some p -> role p <> Some "admin" ->
  let w1 := run is_email [Submit values; LoginSettles (Resolved r)] w in
  trace w1 =
    trace w ++
    [SetIsLoading true;
     ConsoleLog (AttemptInfo (email values) (truthy_string (password values)));
     AdminApi_login (email values) (password values);
     ConsoleLog (ResponseInfo (success r) (present (data r))
                   (truthy_opt_string (data_token r))
                   (data_role user r) (data_role admin r));
     ConsoleLog (CompleteInfo r (truthy_string tok) (present (admin d))
                   (present (user d))
                   (String.append (String.substring 0 20 tok) "...")
                   (response_keys r) (data_keys d));
     ConsoleLog (SelectedInfo (Some p) (role p) false);
     ConsoleError (AccessDenied (role p) "admin" p);
     ConsoleError (LoginError
                     (ErrorObj "Access denied. Admin privileges required."));
     Toast Destructive "Login failed"
           "Access denied. Admin privileges required.";
     SetIsLoading false]
  /\ filter is_persist (effects_since w w1) = []
  /\ filter is_publish (effects_since w w1) = []
  /\ ~ In OnLoginSuccess (effects_since w w1)
  /\ failure_reports (effects_since w w1) =
       ["Access denied. Admin privileges required."]
  /\ timers w1 = timers w /\ awaiting w1 = [] /\ isLoading w1 = false.
Proof.
  intros Hl Ha Hv Hs Hd Ht Hne Hsel Hrole w1.
  assert (Htrace : trace w1 = trace w ++
    [SetIsLoading true;
     ConsoleLog (AttemptInfo (email values) (truthy_string (password values)));
     AdminApi_login (email values) (password values);
     ConsoleLog (ResponseInfo (success r) (present (data r))
                   (truthy_opt_string (data_token r))
                   (data_role user r) (data_role admin r));
     ConsoleLog (CompleteInfo r (truthy_string tok) (present (admin d))
                   (present (user d))
                   (String.append (String.substring 0 20 tok) "...")
                   (response_keys r) (data_keys d));
     ConsoleLog (SelectedInfo (Some p) (role p) false);
     ConsoleError (AccessDenied (role p) "admin" p);
     ConsoleError (LoginError
                     (ErrorObj "Access denied. Admin privileges required."));
     Toast Destructive "Login failed"
           "Access denied. Admin privileges required.";
     SetIsLoading false]
   /\ timers w1 = timers w /\ awaiting w1 = [] /\ isLoading w1 = false).
  { subst w1.
    rewrite (submit_then_settle values (Resolved r) w Hl Ha Hv).
    rewrite (exec_resumed_denied r d tok p _
               (success_with_token_intro r d tok Hs Hd Ht Hne) Hsel
               (proj2 (is_admin_role_false (role p)) Hrole)).
    simpl. flatten_trace. repeat split; reflexivity. }
  destruct Htrace as (Htrace & Htimers & Hawait & Hload).
  rewrite (effects_since_app w w1 _ Htrace).
  split; [exact Htrace|]. simpl.
  repeat split; try reflexivity; try assumption.
  intros Hin. simpl in Hin.
  repeat (destruct Hin as [Hin | Hin]; [discriminate Hin|]). exact Hin.
Qed.

End Submission.

(** ** Failure paths *)

Section Failures.

Variable is_email : string -> bool.

(** C3, as the handler behaves.  A response with the success flag and a token
    but neither an [admin] nor a [user] record is reported with the message
    "Invalid response: missing user data"; nothing is stored or dispatched,
    no exception escapes the handler and the loading flag is cleared. *)
Theorem missing_principal_reported (values : AdminLoginValues)
        (r : ApiResponse) (d : LoginData) (tok : string) (w : World) :
  isLoading w = false -> awaiting w = [] ->
  adminLoginSchema is_email values = [] ->
  success r = true -> data r = Some d -> token d = Some tok -> tok <> "" ->
  admin d = None -> user d = None ->
  let w1 := run is_email [Submit values; LoginSettles (Resolved r)] w in
  trace w1 =
    trace w ++
    [SetIsLoading true;
     ConsoleLog (AttemptInfo (email values) (truthy_string (password values)));
     AdminApi_login (email values) (password values);
     ConsoleLog (ResponseInfo true true true None None);
     ConsoleLog (CompleteInfo r true false false
                   (String.append (String.substring 0 20 tok) "...")
                   (response_keys r) ["token"]);
     ConsoleLog (SelectedInfo None None false);
     ConsoleError (NoUserData d);
     ConsoleError (LoginError
                     (ErrorObj "Invalid response: missing user data"));
     Toast Destructive "Login failed" "Invalid response: missing user data";
     SetIsLoading false]
  /\ failure_reports (effects_since w w1) =
       ["Invalid response: missing user data"]
  /\ timers w1 = timers w /\ awaiting w1 = [] /\ isLoading w1 = false.
Proof.
  intros Hl Ha Hv Hs Hd Ht Hne Hadm Husr w1.
  assert (Hsel : or_else (admin d) (user d) = None)
    by (rewrite Hadm, Husr; reflexivity).
  assert (Hw1 : w1 =
    mkWorld false (socketConnected w) (now w) [] (timers w)
     (trace w ++
      [SetIsLoading true;
       ConsoleLog (AttemptInfo (email values)
                     (truthy_string (password values)));
       AdminApi_login (email values) (password values);
       ConsoleLog (ResponseInfo true true true None None);
       ConsoleLog (CompleteInfo r true false false
                     (String.append (String.substring 0 20 tok) "...")
                     (response_keys r) ["token"]);
       ConsoleLog (SelectedInfo None None false);
       ConsoleError (NoUserData d);
       ConsoleError (LoginError
                       (ErrorObj "Invalid response: missing user data"));
       Toast Destructive "Login failed" "Invalid response: missing user data";
       SetIsLoading false])).
  { subst w1.
    rewrite (submit_then_settle is_email values (Resolved r) w Hl Ha Hv).
    rewrite (exec_resumed_missing_user r d tok _
               (success_with_token_intro r d tok Hs Hd Ht Hne) Hsel).
    unfold data_role, data_token, data_keys.
    rewrite Hs, Hd, Ht, Hadm, Husr.
    destruct tok as [|c rest]; [congruence|].
    simpl. flatten_trace. reflexivity. }
  assert (Htrace := f_equal trace Hw1). simpl in Htrace.
  rewrite (effects_since_app w w1 _ Htrace).
  rewrite Hw1. simpl. repeat split; reflexivity.
Qed.

(** C4. Values that fail the schema (an identifier rejected by the e-mail
    check, or a secret shorter than six characters) never reach [onSubmit]:
    the form shows the field messages, no login call is made and no run is
    left waiting. *)
Theorem invalid_values_never_reach_login (values : AdminLoginValues)
        (w : World) :
  is_email (email values) = false \/ String.length (password values) < 6 ->
  let w1 := step is_email w (Submit values) in
  adminLoginSchema is_email values <> []
  /\ filter is_login_call (trace w1) = filter is_login_call (trace w)
  /\ awaiting w1 = awaiting w
  /\ isLoading w1 = isLoading w
  /\ (isLoading w = false ->
      trace w1 =
        trace w ++
        (if is_email (email values) then []
         else [FormMessage "email" "Please enter a valid email address."])
        ++
        (if Nat.leb 6 (String.length (password values)) then []
         else [FormMessage "password"
                 "Password must be at least 6 characters."])).
Proof.
  intros Hbad w1.
  assert (Hne : adminLoginSchema is_email values <> []).
  { intros Hv. apply schema_valid_iff in Hv. destruct Hv as [He Hp].
    destruct Hbad as [Hbad | Hbad]; [congruence | lia]. }
  split; [exact Hne|].
  subst w1. simpl. destruct (isLoading w) eqn:Hl.
  - unfold submit. rewrite Hl. repeat split; try reflexivity; try assumption.
    discriminate.
  - rewrite (submit_invalid is_email values w Hl Hne). simpl.
    assert (Hshown :
      map (fun fm : string * string => FormMessage (fst fm) (snd fm))
          (adminLoginSchema is_email values) =
      (if is_email (email values) then []
       else [FormMessage "email" "Please enter a valid email address."])
      ++ (if Nat.leb 6 (String.length (password values)) then []
          else [FormMessage "password"
                  "Password must be at least 6 characters."])).
    { unfold adminLoginSchema.
      destruct (is_email (email values));
        destruct (Nat.leb 6 (String.length (password values)));
        reflexivity. }
    rewrite Hshown. repeat split; try reflexivity; try assumption.
    rewrite filter_app.
    destruct (is_email (email values));
      destruct (Nat.leb 6 (String.length (password values)));
      simpl; rewrite app_nil_r; reflexivity.
Qed.

(** C9. A response with the success flag off and a non-empty [error] is
    reported with exactly that text as the description of the failure toast;
    nothing is stored or dispatched. *)
Theorem server_message_shown_verbatim (values : AdminLoginValues)
        (r : ApiResponse) (msg : string) (w : World) :
  isLoading w = false -> awaiting w = [] ->
  adminLoginSchema is_email values = [] ->
  success r = false -> error r = Some msg -> msg <> "" ->
  let w1 := run is_email [Submit values; LoginSettles (Resolved r)] w in
  trace w1 =
    trace w ++
    [SetIsLoading true;
     ConsoleLog (AttemptInfo (email values) (truthy_string (password values)));
     AdminApi_login (email values) (password values);
     ConsoleLog (ResponseInfo false (present (data r))
                   (truthy_opt_string (data_token r))
                   (data_role user r) (data_role admin r));
     ConsoleError (LoginError (ErrorObj msg));
     Toast Destructive "Login failed" msg;
     SetIsLoading false]
  /\ failure_reports (effects_since w w1) = [msg]
  /\ filter is_persist (effects_since w w1) = []
  /\ filter is_publish (effects_since w w1) = []
  /\ timers w1 = timers w /\ awaiting w1 = [] /\ isLoading w1 = false.
Proof.
  intros Hl Ha Hv Hs He Hne w1.
  assert (Hw1 : w1 =
    mkWorld false (socketConnected w) (now w) [] (timers w)
     (trace w ++
      [SetIsLoading true;
       ConsoleLog (AttemptInfo (email values)
                     (truthy_string (password values)));
       AdminApi_login (email values) (password values);
       ConsoleLog (ResponseInfo false (present (data r))
                     (truthy_opt_string (data_token r))
                     (data_role user r) (data_role admin r));
       ConsoleError (LoginError (ErrorObj msg));
       Toast Destructive "Login failed" msg;
       SetIsLoading false])).
  { subst w1.
    rewrite (submit_then_settle is_email values (Resolved r) w Hl Ha Hv).
    rewrite (exec_resumed_no_token r _
               (success_with_token_none r (or_introl Hs))).
    rewrite Hs, He. destruct msg as [|c rest]; [congruence|].
    simpl. flatten_trace. reflexivity. }
  assert (Htrace := f_equal trace Hw1). simpl in Htrace.
  rewrite (effects_since_app w w1 _ Htrace).
  rewrite Hw1. simpl. repeat split; reflexivity.
Qed.

(** C10. A response with the success flag on but no token, or an empty one,
    takes the rejection path: nothing is stored or dispatched, and the
    failure toast carries the response's [error] when that is a non-empty
    string and "Invalid admin credentials or insufficient permissions"
    otherwise; the missing-user-data message is not used. *)
Theorem tokenless_success_is_rejection (values : AdminLoginValues)
        (r : ApiResponse) (w : World) :
  isLoading w = false -> awaiting w = [] ->
  adminLoginSchema is_email values = [] ->
  success r = true ->
  data_token r = None \/ data_token r = Some "" ->
  let msg := match error r with
             | Some m => if truthy_string m then m
                 else "Invalid admin credentials or insufficient permissions"
             | None => "Invalid admin credentials or insufficient permissions"
             end in
  let w1 := run is_email [Submit values; LoginSettles (Resolved r)] w in
  trace w1 =
    trace w ++
    [SetIsLoading true;
     ConsoleLog (AttemptInfo (email values) (truthy_string (password values)));
     AdminApi_login (email values) (password values);
     ConsoleLog (ResponseInfo true (present (data r)) false
                   (data_role user r) (data_role admin r));
     ConsoleError (LoginError (ErrorObj msg));
     Toast Destructive "Login failed" msg;
     SetIsLoading false]
  /\ failure_reports (effects_since w w1) = [msg]
  /\ filter is_persist (effects_since w w1) = []
  /\ filter is_publish (effects_since w w1) = []
  /\ ~ In OnLoginSuccess (effects_since w w1)
  /\ timers w1 = timers w /\ awaiting w1 = [] /\ isLoading w1 = false.
Proof.
  intros Hl Ha Hv Hs Htok msg w1.
  assert (Hfalsy : truthy_opt_string (data_token r) = false)
    by (destruct Htok as [Htok | Htok]; rewrite Htok; reflexivity).
  assert (Hw1 : w1 =
    mkWorld false (socketConnected w) (now w) [] (timers w)
     (trace w ++
      [SetIsLoading true;
       ConsoleLog (AttemptInfo (email values)
                     (truthy_string (password values)));
       AdminApi_login (email values) (password values);
       ConsoleLog (ResponseInfo true (present (data r)) false
                     (data_role user r) (data_role admin r));
       ConsoleError (LoginError (ErrorObj msg));
       Toast Destructive "Login failed" msg;
       SetIsLoading false])).
  { subst w1 msg.
    rewrite (submit_then_settle is_email values (Resolved r) w Hl Ha Hv).
    rewrite (exec_resumed_no_token r _
               (success_with_token_none r (or_intror Hfalsy))).
    rewrite Hs, Hfalsy, or_default_spec. simpl. flatten_trace. reflexivity. }
  assert (Htrace := f_equal trace Hw1). simpl in Htrace.
  rewrite (effects_since_app w w1 _ Htrace).
  rewrite Hw1. simpl. repeat split; try reflexivity.
  intros Hin. repeat (destruct Hin as [Hin | Hin]; [discriminate Hin|]).
  exact Hin.
Qed.

End Failures.

(** ** Principal selection, re-entrancy, reconnection, credentials *)

Section Session.

Variable is_email : string -> bool.

(** The world after a submission whose response passes the token test, by
    the role of the selected principal. *)
Lemma run_granted (values : AdminLoginValues) (r : ApiResponse)
      (d : LoginData) (tok : string) (p : Principal) (w : World) :
  isLoading w = false -> awaiting w = [] ->
  adminLoginSchema is_email values = [] ->
  success_with_token r = Some (d, tok) ->
  or_else (admin d) (user d) = Some p ->
  is_admin_role (role p) = true ->
  let w1 := run is_email [Submit values; LoginSettles (Resolved r)] w in
  effects_since w w1 =
    [SetIsLoading true;
     ConsoleLog (AttemptInfo (email values) (truthy_string (password values)));
     AdminApi_login (email values) (password values);
     ConsoleLog (ResponseInfo (success r) (present (data r))
                   (truthy_opt_string (data_token r))
                   (data_role user r) (data_role admin r));
     ConsoleLog (CompleteInfo r (truthy_string tok) (present (admin d))
                   (present (user d))
                   (String.append (String.substring 0 20 tok) "...")
                   (response_keys r) (data_keys d));
     ConsoleLog (SelectedInfo (Some p) (role p) true);
     DynamicImport "@/services/api";
     SetAdminToken tok;
     LocalStorage_setItem "admin_user" p;
     DispatchEvent "adminLoginSuccess" p tok;
     DynamicImport "@/services/socket";
     IsSocketConnected (socketConnected w)]
    ++ (if socketConnected w then [Socket_disconnect] else [])
    ++ [SetTimeout ConnectSocket 100;
        Toast DefaultVariant "Admin Access Granted"
              "Welcome to the admin panel.";
        OnLoginSuccess;
        SetIsLoading false]
  /\ timers w1 = timers w ++ [(now w + 100, ConnectSocket)]
  /\ socketConnected w1 = false /\ now w1 = now w.
Proof.
  intros Hl Ha Hv Hst Hsel Hrole w1. subst w1.
  rewrite (submit_then_settle is_email values (Resolved r) w Hl Ha Hv).
  rewrite (exec_resumed_granted r d tok p _ Hst Hsel Hrole).
  split; [|repeat split; reflexivity].
  apply effects_since_app. simpl. flatten_trace. reflexivity.
Qed.

Lemma run_denied (values : AdminLoginValues) (r : ApiResponse)
      (d : LoginData) (tok : string) (p : Principal) (w : World) :
  isLoading w = false -> awaiting w = [] ->
  adminLoginSchema is_email values = [] ->
  success_with_token r = Some (d, tok) ->
  or_else (admin d) (user d) = Some p ->
  is_admin_role (role p) = false ->
  let w1 := run is_email [Submit values; LoginSettles (Resolved r)] w in
  effects_since w w1 =
    [SetIsLoading true;
     ConsoleLog (AttemptInfo (email values) (truthy_string (password values)));
     AdminApi_login (email values) (password values);
     ConsoleLog (ResponseInfo (success r) (present (data r))
                   (truthy_opt_string (data_token r))
                   (data_role user r) (data_role admin r));
     ConsoleLog (CompleteInfo r (truthy_string tok) (present (admin d))
                   (present (user d))
                   (String.append (String.substring 0 20 tok) "...")
                   (response_keys r) (data_keys d));
     ConsoleLog (SelectedInfo (Some p) (role p) false);
     ConsoleError (AccessDenied (role p) "admin" p);
     ConsoleError (LoginError
                     (ErrorObj "Access denied. Admin privileges required."));
     Toast Destructive "Login failed"
           "Access denied. Admin privileges required.";
     SetIsLoading false].
Proof.
  intros Hl Ha Hv Hst Hsel Hrole w1. subst w1.
  rewrite (submit_then_settle is_email values (Resolved r) w Hl Ha Hv).
  rewrite (exec_resumed_denied r d tok p _ Hst Hsel Hrole).
  apply effects_since_app. simpl. flatten_trace. reflexivity.
Qed.

(** C5. The principal that is tested for the role, written to
    [localStorage] and carried by the event is the [admin] record when the
    response has one, whatever the [user] record is, and the [user] record
    when there is no [admin] record. *)
Theorem principal_prefers_admin (values : AdminLoginValues)
        (r : ApiResponse) (d : LoginData) (tok : string) (p : Principal)
        (w : World) :
  isLoading w = false -> awaiting w = [] ->
  adminLoginSchema is_email values = [] ->
  success r = true -> data r = Some d -> token d = Some tok -> tok <> "" ->
  admin d = Some p \/ (admin d = None /\ user d = Some p) ->
  let w1 := run is_email [Submit values; LoginSettles (Resolved r)] w in
  let new := effects_since w w1 in
  In (ConsoleLog (SelectedInfo (Some p) (role p) (is_admin_role (role p)))) new
  /\ filter is_persist new =
       (if is_admin_role (role p)
        then [SetAdminToken tok; LocalStorage_setItem "admin_user" p]
        else [])
  /\ filter is_publish new =
       (if is_admin_role (role p)
        then [DispatchEvent "adminLoginSuccess" p tok]
        else [])
  /\ failure_reports new =
       (if is_admin_role (role p)
        then []
        else ["Access denied. Admin privileges required."])
  /\ (In OnLoginSuccess new <-> role p = Some "admin").
Proof.
  intros Hl Ha Hv Hs Hd Ht Hne Hp w1 new.
  assert (Hst := success_with_token_intro r d tok Hs Hd Ht Hne).
  assert (Hsel : or_else (admin d) (user d) = Some p).
  { destruct Hp as [Hadm | [Hadm Husr]]; rewrite Hadm; [reflexivity|].
    exact Husr. }
  rewrite <- is_admin_role_true.
  destruct (is_admin_role (role p)) eqn:Hrole.
  - destruct (run_granted values r d tok p w Hl Ha Hv Hst Hsel Hrole)
      as (Hnew & _).
    subst new w1. rewrite Hnew.
    destruct (socketConnected w); simpl;
      repeat split; try reflexivity; try tauto.
  - assert (Hnew := run_denied values r d tok p w Hl Ha Hv Hst Hsel Hrole).
    subst new w1. rewrite Hnew. simpl.
    repeat split; try reflexivity; try tauto; try discriminate.
    intros Hin. repeat (destruct Hin as [Hin | Hin]; [discriminate Hin|]).
    destruct Hin.
Qed.

(** C7. The reconnection of a granted session queries the connection,
    closes it only when it is open, and sets a timer of 100 ms for the
    connect.  While less than 100 ms have passed that timer is still pending
    and nothing but connects of older timers has been performed; when 100 ms
    have passed it has fired, so the connect stands after the disconnect in
    the trace. *)
Theorem reconnect_after_settling_delay (values : AdminLoginValues)
        (r : ApiResponse) (d : LoginData) (tok : string) (p : Principal)
        (w : World) :
  isLoading w = false -> awaiting w = [] ->
  adminLoginSchema is_email values = [] ->
  success r = true -> data r = Some d -> token d = Some tok -> tok <> "" ->
  or_else (admin d) (user d) = Some p -> role p = Some "admin" ->
  let w1 := run is_email [Submit values; LoginSettles (Resolved r)] w in
  filter is_realtime (effects_since w w1) =
    IsSocketConnected (socketConnected w)
      :: (if socketConnected w then [Socket_disconnect] else [])
      ++ [SetTimeout ConnectSocket 100]
  /\ timers w1 = timers w ++ [(now w + 100, ConnectSocket)]
  /\ socketConnected w1 = false
  /\ (forall ds, total_ms ds < 100 ->
        let w2 := run is_email (map Elapse ds) w1 in
        exists (pending : list (nat * Callback)) (fired : nat),
          timers w2 = pending ++ [(now w + 100, ConnectSocket)]
          /\ trace w2 = trace w1 ++ repeat Socket_connect fired
          /\ List.length pending + fired = List.length (timers w))
  /\ (forall ds, 100 <= total_ms ds ->
        let w2 := run is_email (map Elapse ds) w1 in
        exists fired : nat,
          trace w2 = trace w1 ++ repeat Socket_connect (S fired)
          /\ List.length (timers w2) + fired = List.length (timers w)
          /\ socketConnected w2 = true).
Proof.
  intros Hl Ha Hv Hs Hd Ht Hne Hsel Hrole w1.
  assert (Hst := success_with_token_intro r d tok Hs Hd Ht Hne).
  apply is_admin_role_true in Hrole.
  destruct (run_granted values r d tok p w Hl Ha Hv Hst Hsel Hrole)
    as (Hnew & Htimers & Hsock & Hnow).
  fold w1 in Hnew, Htimers, Hsock, Hnow.
  split.
  { rewrite Hnew. destruct (socketConnected w); reflexivity. }
  split; [exact Htimers|]. split; [exact Hsock|]. split.
  - intros ds Hlt w2.
    apply (wait_before_due is_email ds (timers w) (now w + 100) ConnectSocket
             w1 Htimers).
    lia.
  - intros ds Hge w2.
    apply (wait_until_due is_email ds (timers w) (now w + 100) w1 Htimers);
      lia.
Qed.

Lemma valid_password_truthy (values : AdminLoginValues) :
  adminLoginSchema is_email values = [] ->
  truthy_string (password values) = true.
Proof.
  intros Hv. apply schema_valid_iff in Hv. destruct Hv as [_ Hlen].
  destruct (password values); [simpl in Hlen; lia | reflexivity].
Qed.

(** The trace of a valid submission: the three effects before the await,
    then what the resumed run emits, which does not mention the values. *)
Lemma run_trace (values : AdminLoginValues) (o : LoginOutcome) (w : World) :
  isLoading w = false -> awaiting w = [] ->
  adminLoginSchema is_email values = [] ->
  trace (step is_email w (Submit values)) =
    trace w ++ [SetIsLoading true;
                ConsoleLog (AttemptInfo (email values) true);
                AdminApi_login (email values) (password values)]
  /\ trace (run is_email [Submit values; LoginSettles o] w) =
       trace (step is_email w (Submit values))
       ++ emitted (onSubmit_resumed o) (socketConnected w).
Proof.
  intros Hl Ha Hv.
  rewrite (submit_then_settle is_email values o w Hl Ha Hv).
  rewrite exec_trace. simpl step.
  rewrite (submit_valid is_email values w Hl Hv).
  rewrite (valid_password_truthy values Hv). simpl. split; reflexivity.
Qed.

Lemma outside_request_app (t1 t2 : list Effect) :
  outside_request (t1 ++ t2) = outside_request t1 ++ outside_request t2.
Proof. apply filter_app. Qed.

Lemma outside_request_and_attempt_app (t1 t2 : list Effect) :
  outside_request_and_attempt (t1 ++ t2) =
  outside_request_and_attempt t1 ++ outside_request_and_attempt t2.
Proof. apply filter_app. Qed.

(** After the await the handler makes no login call and writes no attempt
    entry. *)
Lemma resumed_emits_no_request (o : LoginOutcome) (connected : bool) :
  filter is_login_call (emitted (onSubmit_resumed o) connected) = []
  /\ filter is_attempt_log (emitted (onSubmit_resumed o) connected) = [].
Proof.
  unfold onSubmit_resumed, onSubmit_resumed_with. destruct o as [r|t]; cbn [bind].
  - unfold onSubmit_response, onSubmit_response_with.
    destruct (success_with_token r) as [[d tok]|].
    + destruct (or_else (admin d) (user d)) as [p|].
      * destruct (is_admin_role (role p)); destruct connected; cbn;
          split; reflexivity.
      * cbn. split; reflexivity.
    + cbn. split; reflexivity.
  - cbn. split; reflexivity.
Qed.

(** C8, as the handler behaves.  Of the entered values, the secret reaches
    only the login request, and the identifier reaches only the login request
    and the console entry written before it, which holds the identifier and
    a flag for the secret.  Everything performed after the login call
    returns is the same whatever the values were. *)
Theorem credentials_reach_request_and_attempt_log
        (v1 v2 : AdminLoginValues) (o : LoginOutcome) (w : World) :
  isLoading w = false -> awaiting w = [] ->
  adminLoginSchema is_email v1 = [] -> adminLoginSchema is_email v2 = [] ->
  let w1 := run is_email [Submit v1; LoginSettles o] w in
  let w2 := run is_email [Submit v2; LoginSettles o] w in
  (email v1 = email v2 ->
   outside_request (trace w1) = outside_request (trace w2))
  /\ outside_request_and_attempt (trace w1) =
     outside_request_and_attempt (trace w2)
  /\ effects_since (step is_email w (Submit v1)) w1 =
     effects_since (step is_email w (Submit v2)) w2
  /\ filter is_login_call (effects_since w w1) =
     [AdminApi_login (email v1) (password v1)]
  /\ filter is_attempt_log (effects_since w w1) =
     [ConsoleLog (AttemptInfo (email v1) true)].
Proof.
  intros Hl Ha Hv1 Hv2 w1 w2.
  destruct (run_trace v1 o w Hl Ha Hv1) as [Hs1 Hr1].
  destruct (run_trace v2 o w Hl Ha Hv2) as [Hs2 Hr2].
  fold w1 in Hr1. fold w2 in Hr2.
  destruct (resumed_emits_no_request o (socketConnected w)) as [Hreq Hatt].
  assert (Hnew : effects_since w w1 =
            [SetIsLoading true;
             ConsoleLog (AttemptInfo (email v1) true);
             AdminApi_login (email v1) (password v1)]
            ++ emitted (onSubmit_resumed o) (socketConnected w)).
  { apply effects_since_app. rewrite Hr1, Hs1, <- app_assoc. reflexivity. }
  split; [|split; [|split; [|split]]].
  - intros Heq. rewrite Hr1, Hr2, Hs1, Hs2.
    rewrite !outside_request_app. simpl. rewrite Heq. reflexivity.
  - rewrite Hr1, Hr2, Hs1, Hs2.
    rewrite !outside_request_and_attempt_app. reflexivity.
  - rewrite (effects_since_app _ w1 _ Hr1), (effects_since_app _ w2 _ Hr2).
    reflexivity.
  - rewrite Hnew, filter_app, Hreq. reflexivity.
  - rewrite Hnew, filter_app, Hatt. reflexivity.
Qed.

End Session.

(** [onSubmit] itself has no guard: called twice before the first login call
    settles it issues two login calls.  The guard of the page is the
    disabled button. *)
Remark onSubmit_has_no_guard (v1 v2 : AdminLoginValues) (connected : bool) :
  let w := exec (onSubmit v2) (exec (onSubmit v1) (initial connected)) in
  filter is_login_call (trace w) =
    [AdminApi_login (email v1) (password v1);
     AdminApi_login (email v2) (password v2)]
  /\ awaiting w = [onSubmit_resumed; onSubmit_resumed].
Proof. intros w. subst w. rewrite !exec_onSubmit. split; reflexivity. Qed.

(** ** The scenarios, evaluated *)

(** Scenario B on a page whose socket is connected. *)
Lemma granted_effects_in_order_scenario :
  trace (run sample_is_email
           [Submit demo_values; LoginSettles (Resolved response_admin)]
           (initial true)) =
  [SetIsLoading true;
   ConsoleLog (AttemptInfo "admin@x.com" true);
   AdminApi_login "admin@x.com" "secret1";
   ConsoleLog (ResponseInfo true true true None (Some "admin"));
   ConsoleLog (CompleteInfo response_admin true true false "T1..."
                 ["success"; "data"] ["token"; "admin"]);
   ConsoleLog (SelectedInfo (Some admin_principal) (Some "admin") true);
   DynamicImport "@/services/api";
   SetAdminToken "T1";
   LocalStorage_setItem "admin_user" admin_principal;
   DispatchEvent "adminLoginSuccess" admin_principal "T1";
   DynamicImport "@/services/socket";
   IsSocketConnected true;
   Socket_disconnect;
   SetTimeout ConnectSocket 100;
   Toast DefaultVariant "Admin Access Granted" "Welcome to the admin panel.";
   OnLoginSuccess;
   SetIsLoading false].
Proof.
  exact (proj1 (granted_effects_in_order sample_is_email demo_values
                  response_admin
                  (mkData (Some "T1") None (Some admin_principal))
                  "T1" admin_principal (initial true)
                  eq_refl eq_refl eq_refl eq_refl eq_refl eq_refl
                  ltac:(discriminate) eq_refl eq_refl)).
Defined.

(** Scenario C. *)
Lemma non_admin_never_persisted_scenario :
  let w1 := run sample_is_email
              [Submit demo_values; LoginSettles (Resolved response_standard)]
              (initial true) in
  filter is_persist (trace w1) = []
  /\ filter is_publish (trace w1) = []
  /\ failure_reports (trace w1) = ["Access denied. Admin privileges required."].
Proof.
  destruct (non_admin_never_persisted sample_is_email demo_values
              response_standard
              (mkData (Some "T1") (Some standard_principal) None)
              "T1" standard_principal (initial true)
              eq_refl eq_refl eq_refl eq_refl eq_refl eq_refl
              ltac:(discriminate) eq_refl ltac:(discriminate))
    as (_ & Hpersist & Hpublish & _ & Hreport & _).
  exact (conj Hpersist (conj Hpublish Hreport)).
Defined.

(** Scenario E: the message shown is the handler's own. *)
Lemma missing_principal_reported_scenario :
  failure_reports
    (trace (run sample_is_email
              [Submit demo_values;
               LoginSettles (Resolved response_no_principal)]
              (initial true))) =
  ["Invalid response: missing user data"].
Proof.
  exact (proj1 (proj2 (missing_principal_reported sample_is_email demo_values
                  response_no_principal (mkData (Some "T1") None None)
                  "T1" (initial true)
                  eq_refl eq_refl eq_refl eq_refl eq_refl eq_refl
                  ltac:(discriminate) eq_refl eq_refl))).
Defined.

(** Scenario E against the message of the specification: the failure that
    is reported does not read "malformed response". *)
Lemma missing_principal_message_differs :
  failure_reports
    (trace (run sample_is_email
              [Submit demo_values;
               LoginSettles (Resolved response_no_principal)]
              (initial true))) <>
  ["malformed response"].
Proof. vm_compute. discriminate. Qed.

(** Scenario A. *)
Lemma invalid_values_never_reach_login_scenario :
  let w1 := step sample_is_email (initial true)
                 (Submit (mkValues "a@b.com" "short")) in
  filter is_login_call (trace w1) = []
  /\ trace w1 =
       [FormMessage "password" "Password must be at least 6 characters."].
Proof.
  destruct (invalid_values_never_reach_login sample_is_email
              (mkValues "a@b.com" "short") (initial true)
              (or_intror (le_n 6)))
    as (_ & Hcalls & _ & _ & Htrace).
  exact (conj Hcalls (Htrace eq_refl)).
Defined.

(** Both records present: the [admin] record is the one stored and sent. *)
Lemma principal_prefers_admin_scenario :
  let w1 := run sample_is_email
              [Submit demo_values; LoginSettles (Resolved response_both)]
              (initial false) in
  filter is_persist (trace w1) =
    [SetAdminToken "T1"; LocalStorage_setItem "admin_user" admin_principal]
  /\ filter is_publish (trace w1) =
       [DispatchEvent "adminLoginSuccess" admin_principal "T1"].
Proof.
  destruct (principal_prefers_admin sample_is_email demo_values response_both
              (mkData (Some "T1") (Some standard_principal)
                      (Some admin_principal))
              "T1" admin_principal (initial false)
              eq_refl eq_refl eq_refl eq_refl eq_refl eq_refl
              ltac:(discriminate) (or_introl eq_refl))
    as (_ & Hpersist & Hpublish & _).
  exact (conj Hpersist Hpublish).
Defined.

(** Scenario B: the effects on the realtime connection, and the timer left
    pending. *)
Lemma reconnect_after_settling_delay_scenario :
  let w1 := run sample_is_email
              [Submit demo_values; LoginSettles (Resolved response_admin)]
              (initial true) in
  filter is_realtime (trace w1) =
    [IsSocketConnected true; Socket_disconnect; SetTimeout ConnectSocket 100]
  /\ timers w1 = [(100, ConnectSocket)].
Proof.
  destruct (reconnect_after_settling_delay sample_is_email demo_values
              response_admin
              (mkData (Some "T1") None (Some admin_principal))
              "T1" admin_principal (initial true)
              eq_refl eq_refl eq_refl eq_refl eq_refl eq_refl
              ltac:(discriminate) eq_refl eq_refl)
    as (Hrealtime & Htimers & _).
  exact (conj Hrealtime Htimers).
Defined.

(** Scenario B followed by 60 ms and 39 ms, then by one more. *)
Example connect_waits_for_100_ms :
  let w1 := run sample_is_email
              [Submit demo_values; LoginSettles (Resolved response_admin)]
              (initial true) in
  trace (run sample_is_email [Elapse 60; Elapse 39] w1) = trace w1
  /\ trace (run sample_is_email [Elapse 60; Elapse 39; Elapse 1] w1) =
     trace w1 ++ [Socket_connect].
Proof. vm_compute. split; reflexivity. Qed.

(** Two submissions that differ in the secret only. *)
Lemma credentials_reach_request_and_attempt_log_scenario :
  outside_request
    (trace (run sample_is_email
              [Submit demo_values; LoginSettles (Resolved response_rejected)]
              (initial true))) =
  outside_request
    (trace (run sample_is_email
              [Submit (mkValues "admin@x.com" "another-secret");
               LoginSettles (Resolved response_rejected)]
              (initial true))).
Proof.
  exact (proj1 (credentials_reach_request_and_attempt_log sample_is_email
                  demo_values (mkValues "admin@x.com" "another-secret")
                  (Resolved response_rejected) (initial true)
                  eq_refl eq_refl eq_refl eq_refl)
               eq_refl).
Defined.

(** The identifier is written to the console: the entry is part of what is
    observable outside the login request, and two submissions that differ in
    the identifier only are told apart there. *)
Lemma identifier_is_logged :
  let observed (values : AdminLoginValues) :=
    outside_request
      (trace (run sample_is_email
                [Submit values; LoginSettles (Resolved response_rejected)]
                (initial true))) in
  In (ConsoleLog (AttemptInfo "admin@x.com" true)) (observed demo_values)
  /\ observed demo_values <> observed (mkValues "root@x.com" "secret1").
Proof.
  split.
  - vm_compute. right. left. reflexivity.
  - vm_compute. discriminate.
Qed.

(** Scenario D. *)
Lemma server_message_shown_verbatim_scenario :
  failure_reports
    (trace (run sample_is_email
              [Submit demo_values; LoginSettles (Resolved response_rejected)]
              (initial true))) =
  ["invalid credentials"].
Proof.
  exact (proj1 (proj2 (server_message_shown_verbatim sample_is_email
                  demo_values response_rejected "invalid credentials"
                  (initial true)
                  eq_refl eq_refl eq_refl eq_refl eq_refl
                  ltac:(discriminate)))).
Defined.

(** A success flag without a token and without an error text. *)
Lemma tokenless_success_is_rejection_scenario :
  failure_reports
    (trace (run sample_is_email
              [Submit demo_values; LoginSettles (Resolved response_no_token)]
              (initial true))) =
  ["Invalid admin credentials or insufficient permissions"].
Proof.
  exact (proj1 (proj2 (tokenless_success_is_rejection sample_is_email
                  demo_values response_no_token (initial true)
                  eq_refl eq_refl eq_refl eq_refl (or_introl eq_refl)))).
Defined.

(** ** Further properties of the handler *)

Lemma success_with_token_some (r : ApiResponse) (d : LoginData) (tok : string) :
  success_with_token r = Some (d, tok) ->
  success r = true /\ data r = Some d /\ token d = Some tok /\ tok <> "".
Proof.
  unfold success_with_token. intros H.
  destruct (success r); [|discriminate].
  destruct (data r) as [d'|]; [|discriminate].
  destruct (token d') as [t|] eqn:Ht; [|discriminate].
  destruct t as [|c rest]; simpl in H; [discriminate|].
  injection H as Hd Htok. subst d' tok.
  repeat split; try assumption. discriminate.
Qed.

Lemma count_app (f : Effect -> bool) (t1 t2 : list Effect) :
  count f (t1 ++ t2) = count f t1 + count f t2.
Proof. unfold count. rewrite filter_app, length_app. reflexivity. Qed.

Lemma existsb_of_In (f : Effect -> bool) (e : Effect) (t : list Effect) :
  In e t -> f e = true -> existsb f t = true.
Proof. intros Hin Hf. apply existsb_exists. exists e. split; assumption. Qed.

Lemma append_length (a b : string) :
  String.length (String.append a b) = String.length a + String.length b.
Proof. induction a as [|c a IH]; simpl; [reflexivity|]. rewrite IH. reflexivity. Qed.

Lemma substring_prefix_length (m : nat) (s : string) :
  String.length (String.substring 0 m s) = Nat.min m (String.length s).
Proof.
  revert m. induction s as [|c s IH]; intros [|m]; simpl; try reflexivity.
  rewrite IH. reflexivity.
Qed.

(** Splits a goal about [emitted (onSubmit_resumed o) c] into the paths of
    the handler and evaluates the emitted effects on each path. *)
Ltac resumed_paths o c :=
  unfold onSubmit_resumed, onSubmit_resumed_with; destruct o as [?r | ?t]; cbn [bind];
  [ unfold onSubmit_response, onSubmit_response_with;
    destruct (success_with_token _) as [[?d ?tok]|] eqn:?Hst;
    [ destruct (or_else (admin _) (user _)) as [?p|] eqn:?Hsel;
      [ destruct (is_admin_role (role _)) eqn:?Hrole; destruct c | ]
    | ]
  | ]; cbn.

Section Outcomes.

Variable is_email : string -> bool.

(** What a valid submission on an idle page performs, and the page it
    leaves, for every outcome of the login call. *)
Lemma run_effects (values : AdminLoginValues) (o : LoginOutcome) (w : World) :
  isLoading w = false -> awaiting w = [] ->
  adminLoginSchema is_email values = [] ->
  let w1 := run is_email [Submit values; LoginSettles o] w in
  effects_since w w1 =
    [SetIsLoading true;
     ConsoleLog (AttemptInfo (email values) true);
     AdminApi_login (email values) (password values)]
    ++ emitted (onSubmit_resumed o) (socketConnected w)
  /\ trace w1 = trace w ++ effects_since w w1
  /\ isLoading w1 = false /\ awaiting w1 = [] /\ now w1 = now w.
Proof.
  intros Hl Ha Hv w1.
  assert (Htrace : trace w1 =
            trace w ++
            [SetIsLoading true;
             ConsoleLog (AttemptInfo (email values) true);
             AdminApi_login (email values) (password values)]
            ++ emitted (onSubmit_resumed o) (socketConnected w)).
  { subst w1. rewrite (submit_then_settle is_email values o w Hl Ha Hv).
    rewrite exec_trace. simpl.
    rewrite (valid_password_truthy is_email values Hv).
    flatten_trace. reflexivity. }
  rewrite (effects_since_app w w1 _ Htrace).
  split; [reflexivity|]. split; [exact Htrace|].
  subst w1. rewrite (submit_then_settle is_email values o w Hl Ha Hv).
  match goal with
  | |- context [exec (onSubmit_resumed o) ?w0] =>
      destruct (exec_resumed_finishes o w0) as [Hfl Hfa]
  end.
  rewrite Hfl, Hfa. repeat split.
  destruct w as [l c n a tm tr]. simpl.
  resumed_paths o c; reflexivity.
Qed.

(** X1. When the login call rejects, the failure toast shows the message of
    the [Error], or "An unexpected error occurred." for any other thrown
    value; nothing is stored or dispatched and the callback is not called. *)
Theorem rejected_login_reported (values : AdminLoginValues) (t : Thrown)
        (w : World) :
  isLoading w = false -> awaiting w = [] ->
  adminLoginSchema is_email values = [] ->
  let w1 := run is_email [Submit values; LoginSettles (Rejected t)] w in
  let new := effects_since w w1 in
  (forall message, t = ErrorObj message -> failure_reports new = [message])
  /\ (forall value, t = NonError value ->
        failure_reports new = ["An unexpected error occurred."])
  /\ In (ConsoleError (LoginError t)) new
  /\ filter is_persist new = [] /\ filter is_publish new = []
  /\ count is_callback new = 0
  /\ timers w1 = timers w /\ socketConnected w1 = socketConnected w.
Proof.
  intros Hl Ha Hv w1 new.
  destruct (run_effects values (Rejected t) w Hl Ha Hv) as (Hnew & _).
  fold w1 in Hnew. fold new in Hnew.
  assert (Hw1 : timers w1 = timers w /\ socketConnected w1 = socketConnected w).
  { subst w1.
    rewrite (submit_then_settle is_email values (Rejected t) w Hl Ha Hv).
    rewrite exec_resumed_rejected. split; reflexivity. }
  rewrite Hnew. cbn.
  split; [intros message Ht; subst t; reflexivity|].
  split; [intros value Ht; subst t; reflexivity|].
  split; [right; right; right; left; reflexivity|].
  repeat split; apply Hw1.
Qed.

(** X2. Whatever the outcome of the login call, the handler lets no
    exception escape, its last effect clears the loading flag, the page is
    idle again, and the next valid submit issues a new login call. *)
Theorem handler_always_settles (values next : AdminLoginValues)
        (o : LoginOutcome) (w : World) :
  isLoading w = false -> awaiting w = [] ->
  adminLoginSchema is_email values = [] ->
  adminLoginSchema is_email next = [] ->
  let w1 := run is_email [Submit values; LoginSettles o] w in
  let new := effects_since w w1 in
  count is_unhandled new = 0
  /\ (exists before, new = before ++ [SetIsLoading false])
  /\ count is_loading_on new = 1 /\ count is_loading_off new = 1
  /\ isLoading w1 = false /\ awaiting w1 = []
  /\ filter is_login_call (effects_since w1 (step is_email w1 (Submit next))) =
     [AdminApi_login (email next) (password next)].
Proof.
  intros Hl Ha Hv Hnext w1 new.
  destruct (run_effects values o w Hl Ha Hv) as (Hnew & _ & Hl1 & Ha1 & _).
  fold w1 in Hnew, Hl1, Ha1. fold new in Hnew.
  assert (Hretry :
    filter is_login_call (effects_since w1 (step is_email w1 (Submit next))) =
    [AdminApi_login (email next) (password next)]).
  { simpl step. rewrite (submit_valid is_email next w1 Hl1 Hnext).
    erewrite effects_since_app; [|simpl; reflexivity]. reflexivity. }
  rewrite Hnew. clear Hnew.
  generalize (socketConnected w). intros c.
  resumed_paths o c; unfold count; cbn;
    (split; [reflexivity|]);
    (split; [match goal with
             | |- exists before, ?l = before ++ [_] =>
                 exists (removelast l); reflexivity
             end|]);
    repeat split; assumption.
Qed.

End Outcomes.

Section Reports.

Variable is_email : string -> bool.

(** X4. The token store, [localStorage], the event and the callback are
    reached only when the login call resolved with the success flag, a
    non-empty token and a selected principal whose role is [admin]. *)
Theorem session_effects_only_when_granted (values : AdminLoginValues)
        (o : LoginOutcome) (w : World) (e : Effect) :
  isLoading w = false -> awaiting w = [] ->
  adminLoginSchema is_email values = [] ->
  let w1 := run is_email [Submit values; LoginSettles o] w in
  In e (effects_since w w1) ->
  is_persist e || is_publish e || is_callback e = true ->
  exists r d tok p,
    o = Resolved r /\ success r = true /\ data r = Some d
    /\ token d = Some tok /\ tok <> ""
    /\ or_else (admin d) (user d) = Some p /\ role p = Some "admin".
Proof.
  intros Hl Ha Hv w1 Hin He.
  destruct (run_effects is_email values o w Hl Ha Hv) as (Hnew & _).
  fold w1 in Hnew. rewrite Hnew in Hin. clear Hnew.
  pose proof (existsb_of_In
                (fun x => is_persist x || is_publish x || is_callback x)
                e _ Hin He) as Hex.
  clear Hin He.
  revert Hex. generalize (socketConnected w). intros c.
  resumed_paths o c; intros Hex; try discriminate Hex;
    destruct (success_with_token_some _ _ _ Hst) as (Hs & Hd & Ht & Hne);
    apply is_admin_role_true in Hrole;
    eexists _, _, _, _; repeat split; eassumption.
Qed.

(** X5. Whenever the response passes the token test, the whole response,
    with the token in clear, is written to the console together with a
    preview of the token of at most 23 characters; this happens before the
    role is looked at, so also when access is then denied. *)
Theorem token_written_to_console (values : AdminLoginValues)
        (r : ApiResponse) (d : LoginData) (tok : string) (w : World) :
  isLoading w = false -> awaiting w = [] ->
  adminLoginSchema is_email values = [] ->
  success r = true -> data r = Some d -> token d = Some tok -> tok <> "" ->
  let w1 := run is_email [Submit values; LoginSettles (Resolved r)] w in
  let preview := String.append (String.substring 0 20 tok) "..." in
  (exists keys dataKeys,
     In (ConsoleLog (CompleteInfo r true (present (admin d))
                       (present (user d)) preview keys dataKeys))
        (effects_since w w1))
  /\ String.length preview = Nat.min 20 (String.length tok) + 3.
Proof.
  intros Hl Ha Hv Hs Hd Ht Hne w1 preview.
  destruct (run_effects is_email values (Resolved r) w Hl Ha Hv) as (Hnew & _).
  fold w1 in Hnew. rewrite Hnew. clear Hnew.
  split.
  - pose proof (success_with_token_intro r d tok Hs Hd Ht Hne) as Hst.
    assert (Htruthy : truthy_string tok = true)
      by (destruct tok; [congruence | reflexivity]).
    exists (response_keys r), (data_keys d).
    unfold onSubmit_resumed, onSubmit_resumed_with. cbn [bind]. unfold onSubmit_response, onSubmit_response_with.
    rewrite Hst, Htruthy. fold preview. cbn.
    right. right. right. right. left. reflexivity.
  - subst preview. rewrite append_length, substring_prefix_length.
    reflexivity.
Qed.

(** X6. A response that fails the token test and carries no error text (the
    [error] property is absent or empty) is reported with the generic
    message, whatever the success flag and the data are. *)
Theorem rejection_without_text (values : AdminLoginValues) (r : ApiResponse)
        (w : World) :
  isLoading w = false -> awaiting w = [] ->
  adminLoginSchema is_email values = [] ->
  success r = false \/ data_token r = None \/ data_token r = Some "" ->
  error r = None \/ error r = Some "" ->
  let w1 := run is_email [Submit values; LoginSettles (Resolved r)] w in
  let new := effects_since w w1 in
  failure_reports new =
    ["Invalid admin credentials or insufficient permissions"]
  /\ filter is_persist new = [] /\ filter is_publish new = []
  /\ count is_callback new = 0.
Proof.
  intros Hl Ha Hv Hfail Herr w1 new.
  destruct (run_effects is_email values (Resolved r) w Hl Ha Hv) as (Hnew & _).
  fold w1 in Hnew. fold new in Hnew. rewrite Hnew. clear Hnew.
  assert (Hst : success_with_token r = None).
  { apply success_with_token_none.
    destruct Hfail as [Hs | [Htok | Htok]];
      [left; exact Hs | right; rewrite Htok; reflexivity
       | right; rewrite Htok; reflexivity]. }
  assert (Hmsg : or_default (error r)
                   "Invalid admin credentials or insufficient permissions" =
                 "Invalid admin credentials or insufficient permissions")
    by (destruct Herr as [He | He]; rewrite He; reflexivity).
  unfold onSubmit_resumed, onSubmit_resumed_with. cbn [bind]. unfold onSubmit_response, onSubmit_response_with.
  rewrite Hst, Hmsg. cbn. repeat split; reflexivity.
Qed.

Lemma localStorage_after_app (key : string) (before : option Principal)
      (t1 t2 : list Effect) :
  localStorage_after key before (t1 ++ t2) =
  localStorage_after key (localStorage_after key before t1) t2.
Proof. unfold localStorage_after. apply fold_left_app. Qed.

(** X7. The [admin_user] entry of [localStorage] after a submission: a
    submission that does not call the callback leaves the entry as it was,
    and one that dispatches the event has stored the principal that the
    event carries. *)
Theorem admin_user_entry_after (values : AdminLoginValues) (o : LoginOutcome)
        (w : World) (before : option Principal) :
  isLoading w = false -> awaiting w = [] ->
  adminLoginSchema is_email values = [] ->
  let w1 := run is_email [Submit values; LoginSettles o] w in
  let new := effects_since w w1 in
  (count is_callback new = 0 ->
   localStorage_after "admin_user" before new = before)
  /\ (forall p tok, In (DispatchEvent "adminLoginSuccess" p tok) new ->
        localStorage_after "admin_user" before new = Some p)
  /\ localStorage_after "admin_user" before (trace w1) =
     localStorage_after "admin_user"
       (localStorage_after "admin_user" before (trace w)) new.
Proof.
  intros Hl Ha Hv w1 new.
  destruct (run_effects is_email values o w Hl Ha Hv) as (Hnew & Htrace & _).
  fold w1 in Hnew, Htrace. fold new in Hnew, Htrace.
  split; [|split].
  - rewrite Hnew. clear. generalize (socketConnected w). intros c.
    resumed_paths o c; unfold count; cbn; intros H;
      try reflexivity; discriminate H.
  - intros p0 tok0. rewrite Hnew. clear.
    generalize (socketConnected w). intros c.
    resumed_paths o c; intros Hin;
      repeat (destruct Hin as [Hin | Hin];
              [try discriminate Hin; injection Hin as Hp Htok; subst;
               reflexivity|]);
      destruct Hin.
  - rewrite Htrace. apply localStorage_after_app.
Qed.

(** X15. A submission that does not reach the callback leaves the realtime
    connection alone: no status query, no disconnect, no timer. *)
Theorem failed_attempt_keeps_connection (values : AdminLoginValues)
        (o : LoginOutcome) (w : World) :
  isLoading w = false -> awaiting w = [] ->
  adminLoginSchema is_email values = [] ->
  let w1 := run is_email [Submit values; LoginSettles o] w in
  count is_callback (effects_since w w1) = 0 ->
  filter is_realtime (effects_since w w1) = []
  /\ socketConnected w1 = socketConnected w /\ timers w1 = timers w.
Proof.
  intros Hl Ha Hv w1.
  destruct (run_effects is_email values o w Hl Ha Hv) as (Hnew & _).
  fold w1 in Hnew. rewrite Hnew. clear Hnew. subst w1.
  rewrite (submit_then_settle is_email values o w Hl Ha Hv).
  destruct o as [r | t].
  - destruct (success_with_token r) as [[d tok]|] eqn:Hst.
    + destruct (or_else (admin d) (user d)) as [p|] eqn:Hsel.
      * destruct (is_admin_role (role p)) eqn:Hrole.
        -- unfold onSubmit_resumed, onSubmit_resumed_with. cbn [bind].
           unfold onSubmit_response, onSubmit_response_with. rewrite Hst, Hsel, Hrole.
           destruct (socketConnected w); unfold count; cbn; discriminate.
        -- rewrite (exec_resumed_denied r d tok p _ Hst Hsel Hrole).
           unfold onSubmit_resumed, onSubmit_resumed_with. cbn [bind].
           unfold onSubmit_response, onSubmit_response_with. rewrite Hst, Hsel, Hrole. cbn.
           repeat split.
      * rewrite (exec_resumed_missing_user r d tok _ Hst Hsel).
        unfold onSubmit_resumed, onSubmit_resumed_with. cbn [bind].
        unfold onSubmit_response, onSubmit_response_with. rewrite Hst, Hsel. cbn. repeat split.
    + rewrite (exec_resumed_no_token r _ Hst).
      unfold onSubmit_resumed, onSubmit_resumed_with. cbn [bind].
      unfold onSubmit_response, onSubmit_response_with. rewrite Hst. cbn. repeat split.
  - rewrite exec_resumed_rejected. cbn. repeat split.
Qed.

End Reports.

(** ** Sequences of events *)

Section Sequences.

Variable is_email : string -> bool.

(** X8. The form as first rendered cannot be submitted: its secret is
    empty, so a submit shows the password message and makes no login call,
    whatever the e-mail check says about the default identifier. *)
Theorem default_values_never_reach_login (w : World) :
  let w1 := step is_email w (Submit defaultValues) in
  filter is_login_call (trace w1) = filter is_login_call (trace w)
  /\ awaiting w1 = awaiting w /\ isLoading w1 = isLoading w
  /\ (isLoading w = false ->
      exists shown,
        trace w1 =
          trace w ++ shown ++
          [FormMessage "password" "Password must be at least 6 characters."]
        /\ filter is_login_call shown = []).
Proof.
  intros w1. subst w1. simpl step. destruct (isLoading w) eqn:Hl.
  - unfold submit. rewrite Hl. repeat split; try reflexivity; try assumption.
    discriminate.
  - assert (Hne : adminLoginSchema is_email defaultValues <> []).
    { unfold adminLoginSchema.
      destruct (is_email (email defaultValues)); discriminate. }
    rewrite (submit_invalid is_email defaultValues w Hl Hne). simpl.
    unfold adminLoginSchema.
    destruct (is_email (email defaultValues)); simpl;
      rewrite filter_app; simpl; rewrite app_nil_r;
      (split; [reflexivity|]); (split; [reflexivity|]);
      (split; [assumption|]); intros _.
    + exists []. split; reflexivity.
    + exists [FormMessage "email" "Please enter a valid email address."].
      split; reflexivity.
Qed.

(** The page after a granted submission. *)
Lemma run_granted_world (values : AdminLoginValues) (r : ApiResponse)
      (d : LoginData) (tok : string) (p : Principal) (w : World) :
  isLoading w = false -> awaiting w = [] ->
  adminLoginSchema is_email values = [] ->
  success_with_token r = Some (d, tok) ->
  or_else (admin d) (user d) = Some p ->
  role p = Some "admin" ->
  exists new,
    run is_email [Submit values; LoginSettles (Resolved r)] w =
    mkWorld false false (now w) []
            (timers w ++ [(now w + 100, ConnectSocket)]) (trace w ++ new)
    /\ filter is_realtime new =
         IsSocketConnected (socketConnected w)
           :: (if socketConnected w then [Socket_disconnect] else [])
           ++ [SetTimeout ConnectSocket 100].
Proof.
  intros Hl Ha Hv Hst Hsel Hrole.
  apply is_admin_role_true in Hrole.
  rewrite (submit_then_settle is_email values (Resolved r) w Hl Ha Hv).
  rewrite (exec_resumed_granted r d tok p _ Hst Hsel Hrole). simpl.
  eexists. split.
  - rewrite <- app_assoc. reflexivity.
  - destruct (socketConnected w); reflexivity.
Qed.

(** X10. A second granted submission less than 100 ms after a first one
    finds the connection closed: it does not disconnect, it sets a second
    timer, and both timers fire, so [connect] is called twice in a row. *)
Theorem second_session_within_delay
        (v1 v2 : AdminLoginValues) (r1 r2 : ApiResponse)
        (d1 d2 : LoginData) (tok1 tok2 : string) (p1 p2 : Principal)
        (dt : nat) (w : World) :
  isLoading w = false -> awaiting w = [] -> timers w = [] ->
  adminLoginSchema is_email v1 = [] -> adminLoginSchema is_email v2 = [] ->
  success_with_token r1 = Some (d1, tok1) ->
  or_else (admin d1) (user d1) = Some p1 -> role p1 = Some "admin" ->
  success_with_token r2 = Some (d2, tok2) ->
  or_else (admin d2) (user d2) = Some p2 -> role p2 = Some "admin" ->
  dt < 100 ->
  let w2 := run is_email
              [Submit v1; LoginSettles (Resolved r1); Elapse dt;
               Submit v2; LoginSettles (Resolved r2)] w in
  filter is_realtime (effects_since w w2) =
    IsSocketConnected (socketConnected w)
      :: (if socketConnected w then [Socket_disconnect] else [])
      ++ [SetTimeout ConnectSocket 100;
          IsSocketConnected false;
          SetTimeout ConnectSocket 100]
  /\ timers w2 =
       [(now w + 100, ConnectSocket); (now w + dt + 100, ConnectSocket)]
  /\ (forall ms, 100 <= ms ->
        trace (step is_email w2 (Elapse ms)) =
        trace w2 ++ [Socket_connect; Socket_connect]).
Proof.
  intros Hl Ha Htm Hv1 Hv2 Hst1 Hsel1 Hrole1 Hst2 Hsel2 Hrole2 Hdt w2.
  destruct (run_granted_world v1 r1 d1 tok1 p1 w Hl Ha Hv1 Hst1 Hsel1 Hrole1)
    as (new1 & Hw1 & Hreal1).
  rewrite Htm, app_nil_l in Hw1.
  assert (Hsplit : w2 =
            run is_email [Submit v2; LoginSettles (Resolved r2)]
              (elapse dt
                 (run is_email [Submit v1; LoginSettles (Resolved r1)] w)))
    by reflexivity.
  assert (Hnot : is_due (now w + dt) (now w + 100, ConnectSocket) = false).
  { unfold is_due. simpl. apply Nat.leb_gt. lia. }
  assert (Helapse :
    elapse dt (run is_email [Submit v1; LoginSettles (Resolved r1)] w) =
    mkWorld false false (now w + dt) [] [(now w + 100, ConnectSocket)]
            (trace w ++ new1)).
  { rewrite Hw1, elapse_spec. simpl. rewrite Hnot. simpl.
    rewrite app_nil_r. reflexivity. }
  rewrite Helapse in Hsplit.
  match type of Hsplit with
  | _ = run is_email _ ?w0 =>
      destruct (run_granted_world v2 r2 d2 tok2 p2 w0 eq_refl eq_refl Hv2
                  Hst2 Hsel2 Hrole2) as (new2 & Hw2 & Hreal2)
  end.
  rewrite Hw2 in Hsplit. simpl in Hsplit, Hreal2. clear Hw2 Hw1 Helapse.
  rewrite Hsplit. split; [|split].
  - erewrite effects_since_app; [|simpl; rewrite <- app_assoc; reflexivity].
    rewrite filter_app, Hreal1, Hreal2.
    destruct (socketConnected w); reflexivity.
  - reflexivity.
  - intros ms Hms. simpl step. rewrite elapse_spec. simpl.
    assert (Hdue1 : is_due (now w + dt + ms) (now w + 100, ConnectSocket)
                    = true)
      by (unfold is_due; simpl; apply Nat.leb_le; lia).
    assert (Hdue2 : is_due (now w + dt + ms) (now w + dt + 100, ConnectSocket)
                    = true)
      by (unfold is_due; simpl; apply Nat.leb_le; lia).
    rewrite Hdue1, Hdue2. reflexivity.
Qed.

End Sequences.

(** ** Bookkeeping over all event sequences *)


Lemma count_form_messages (f : Effect -> bool)
      (errors : list (string * string)) :
  (forall field message, f (FormMessage field message) = false) ->
  count f (map (fun fm => FormMessage (fst fm) (snd fm)) errors) = 0.
Proof.
  intros Hf. unfold count.
  induction errors as [|[field message] rest IH]; simpl; [reflexivity|].
  rewrite Hf. exact IH.
Qed.

Lemma count_connects (f : Effect -> bool) (n : nat) :
  count f (repeat Socket_connect n) = if f Socket_connect then n else 0.
Proof.
  unfold count. induction n as [|n IH]; simpl.
  - destruct (f Socket_connect); reflexivity.
  - destruct (f Socket_connect); simpl; [rewrite IH; reflexivity | exact IH].
Qed.

Section Bookkeeping.

Variable is_email : string -> bool.




End Bookkeeping.

Section Reachable.

Variable is_email : string -> bool.



End Reachable.

(** ** The further properties, evaluated *)

(** A network failure reported by an [Error]. *)
Lemma rejected_login_reported_scenario :
  failure_reports
    (effects_since (initial true)
       (run sample_is_email
          [Submit demo_values;
           LoginSettles (Rejected (ErrorObj "Network Error"))]
          (initial true))) =
  ["Network Error"].
Proof.
  exact (proj1 (rejected_login_reported sample_is_email demo_values
                  (ErrorObj "Network Error") (initial true)
                  eq_refl eq_refl eq_refl)
               "Network Error" eq_refl).
Defined.

(** After scenario C the page accepts the next submission. *)
Lemma handler_always_settles_scenario :
  let w1 := run sample_is_email
              [Submit demo_values; LoginSettles (Resolved response_standard)]
              (initial true) in
  isLoading w1 = false
  /\ filter is_login_call
       (effects_since w1
          (step sample_is_email w1
                (Submit (mkValues "root@x.com" "secret2")))) =
     [AdminApi_login "root@x.com" "secret2"].
Proof.
  destruct (handler_always_settles sample_is_email demo_values
              (mkValues "root@x.com" "secret2")
              (Resolved response_standard) (initial true)
              eq_refl eq_refl eq_refl eq_refl)
    as (_ & _ & _ & _ & Hidle & _ & Hretry).
  exact (conj Hidle Hretry).
Defined.

(** The callback of scenario B, traced back to its response. *)
Lemma session_effects_only_when_granted_scenario :
  exists r d tok p,
    Resolved response_admin = Resolved r /\ success r = true
    /\ data r = Some d /\ token d = Some tok /\ tok <> ""
    /\ or_else (admin d) (user d) = Some p /\ role p = Some "admin".
Proof.
  exact (session_effects_only_when_granted sample_is_email demo_values
           (Resolved response_admin) (initial true) OnLoginSuccess
           eq_refl eq_refl eq_refl
           ltac:(vm_compute; repeat (first [left; reflexivity | right]))
           eq_refl).
Defined.

(** Scenario C: access is denied and the token has been written to the
    console. *)
Lemma token_written_to_console_scenario :
  exists keys dataKeys,
    In (ConsoleLog (CompleteInfo response_standard true false true "T1..."
                      keys dataKeys))
       (effects_since (initial true)
          (run sample_is_email
             [Submit demo_values; LoginSettles (Resolved response_standard)]
             (initial true))).
Proof.
  exact (proj1 (token_written_to_console sample_is_email demo_values
                  response_standard
                  (mkData (Some "T1") (Some standard_principal) None) "T1"
                  (initial true)
                  eq_refl eq_refl eq_refl eq_refl eq_refl eq_refl
                  ltac:(discriminate))).
Defined.

(** A rejection with an empty error text. *)
Lemma rejection_without_text_scenario :
  failure_reports
    (effects_since (initial true)
       (run sample_is_email
          [Submit demo_values;
           LoginSettles (Resolved (mkResponse false None (Some "")))]
          (initial true))) =
  ["Invalid admin credentials or insufficient permissions"].
Proof.
  exact (proj1 (rejection_without_text sample_is_email demo_values
                  (mkResponse false None (Some "")) (initial true)
                  eq_refl eq_refl eq_refl (or_introl eq_refl)
                  (or_intror eq_refl))).
Defined.

(** Scenario C on a browser that holds an earlier [admin_user] entry. *)
Lemma admin_user_entry_after_scenario :
  localStorage_after "admin_user" (Some admin_principal)
    (effects_since (initial true)
       (run sample_is_email
          [Submit demo_values; LoginSettles (Resolved response_standard)]
          (initial true))) =
  Some admin_principal.
Proof.
  exact (proj1 (admin_user_entry_after sample_is_email demo_values
                  (Resolved response_standard) (initial true)
                  (Some admin_principal) eq_refl eq_refl eq_refl)
               eq_refl).
Defined.

(** The untouched form, submitted. *)
Lemma default_values_never_reach_login_scenario :
  filter is_login_call
    (trace (step sample_is_email (initial true) (Submit defaultValues))) = [].
Proof.
  exact (proj1 (default_values_never_reach_login sample_is_email
                  (initial true))).
Defined.

(** Scenario B twice, 50 ms apart. *)
Lemma second_session_within_delay_scenario :
  let w2 := run sample_is_email
              [Submit demo_values; LoginSettles (Resolved response_admin);
               Elapse 50;
               Submit demo_values; LoginSettles (Resolved response_admin)]
              (initial true) in
  filter is_realtime (effects_since (initial true) w2) =
    [IsSocketConnected true; Socket_disconnect; SetTimeout ConnectSocket 100;
     IsSocketConnected false; SetTimeout ConnectSocket 100]
  /\ timers w2 = [(100, ConnectSocket); (150, ConnectSocket)].
Proof.
  destruct (second_session_within_delay sample_is_email
              demo_values demo_values response_admin response_admin
              (mkData (Some "T1") None (Some admin_principal))
              (mkData (Some "T1") None (Some admin_principal))
              "T1" "T1" admin_principal admin_principal 50 (initial true)
              eq_refl eq_refl eq_refl eq_refl eq_refl
              eq_refl eq_refl eq_refl eq_refl eq_refl eq_refl
              ltac:(repeat constructor))
    as (Hrealtime & Htimers & _).
  exact (conj Hrealtime Htimers).
Defined.

(** Scenario C on an open connection. *)
Lemma failed_attempt_keeps_connection_scenario :
  socketConnected
    (run sample_is_email
       [Submit demo_values; LoginSettles (Resolved response_standard)]
       (initial true)) = true.
Proof.
  exact (proj1 (proj2 (failed_attempt_keeps_connection sample_is_email
                         demo_values (Resolved response_standard)
                         (initial true) eq_refl eq_refl eq_refl eq_refl))).
Defined.

(** ** The handler with a prop that may throw *)

(** Splits a goal about [onSubmit_resumed_with callback o], run from a
    connection status [c], into the paths of the handler. *)
Ltac resumed_with_paths callback o c :=
  unfold onSubmit_resumed_with; destruct o as [?r | ?t]; cbn [bind];
  [ unfold onSubmit_response_with;
    destruct (success_with_token _) as [[?d ?tok]|] eqn:?Hst;
    [ destruct (or_else (admin _) (user _)) as [?p|] eqn:?Hsel;
      [ destruct (is_admin_role (role _)) eqn:?Hrole;
        [ destruct callback as [|?error]; destruct c | ]
      | ]
    | ]
  | ]; cbn.

(** [onSubmit_with] up to its suspension at the login call. *)
Lemma exec_onSubmit_with (callback : CallbackOutcome)
      (values : AdminLoginValues) (w : World) :
  exec (onSubmit_with callback values) w =
  mkWorld true (socketConnected w) (now w)
          (awaiting w ++ [onSubmit_resumed_with callback]) (timers w)
          (trace w ++ [SetIsLoading true;
                       ConsoleLog (AttemptInfo (email values)
                                     (truthy_string (password values)));
                       AdminApi_login (email values) (password values)]).
Proof.
  destruct w as [l c n a tm tr]. cbn. flatten_trace. reflexivity.
Qed.

(** The page a resumed run leaves, whatever the prop does: the loading flag
    is cleared once, no login call is made, nothing escapes. *)
Lemma exec_resumed_with_accounting (callback : CallbackOutcome)
      (o : LoginOutcome) (w : World) :
  exists (c' : bool) (tm' new : list _),
    exec (onSubmit_resumed_with callback o) w =
    mkWorld false c' (now w) (awaiting w) (timers w ++ tm') (trace w ++ new)
    /\ new = emitted (onSubmit_resumed_with callback o) (socketConnected w)
    /\ count is_loading_on new = 0 /\ count is_loading_off new = 1
    /\ count is_login_call new = 0 /\ count is_unhandled new = 0.
Proof.
  destruct w as [l c n a tm tr]. simpl socketConnected.
  resumed_with_paths callback o c;
    first [ exists false, [(n + 100, ConnectSocket)]; eexists;
            split; [flatten_trace; reflexivity|]
          | eexists _, [], _; rewrite app_nil_r;
            split; [flatten_trace; reflexivity|] ];
    unfold count; cbn; repeat split; reflexivity.
Qed.

(** One run of the handler on a page without other pending runs. *)
Lemma handler_effects (callback : CallbackOutcome)
      (values : AdminLoginValues) (o : LoginOutcome) (w : World) :
  awaiting w = [] ->
  let w1 := settle o (exec (onSubmit_with callback values) w) in
  effects_since w w1 =
    [SetIsLoading true;
     ConsoleLog (AttemptInfo (email values) (truthy_string (password values)));
     AdminApi_login (email values) (password values)]
    ++ emitted (onSubmit_resumed_with callback o) (socketConnected w).
Proof.
  intros Ha w1. subst w1. rewrite exec_onSubmit_with, Ha.
  unfold settle. simpl. apply effects_since_app.
  rewrite exec_trace. simpl. flatten_trace. reflexivity.
Qed.

(** X3. A completed submission shows the success toast exactly when the
    callback is called.  When the [onLoginSuccess] prop returns, that is the
    only toast of a granted submission and every other submission shows one
    failure toast.  When the prop throws, a granted submission shows the
    success toast and then a failure toast with the thrown message, although
    the token and the principal are stored, the event is dispatched and the
    reconnection is scheduled. *)
Theorem toasts_of_a_submission (callback : CallbackOutcome)
        (values : AdminLoginValues) (o : LoginOutcome) (w : World) :
  awaiting w = [] ->
  let w1 := settle o (exec (onSubmit_with callback values) w) in
  let new := effects_since w w1 in
  count is_success_toast new = count is_callback new
  /\ (callback = Returns ->
      count is_toast new = 1
      /\ List.length (failure_reports new) + count is_callback new = 1)
  /\ (forall thrown, callback = Throws thrown ->
      List.length (failure_reports new) = 1
      /\ count is_toast new = 1 + count is_callback new
      /\ (count is_callback new = 1 ->
          failure_reports new =
            [match thrown with
             | ErrorObj message => message
             | NonError _ => "An unexpected error occurred."
             end]
          /\ count is_set_token new = 1 /\ count is_set_item new = 1
          /\ count is_publish new = 1 /\ count is_timeout new = 1)).
Proof.
  intros Ha w1 new.
  pose proof (handler_effects callback values o w Ha) as Hnew.
  subst new w1. rewrite Hnew. clear Hnew.
  generalize (socketConnected w). intros c.
  resumed_with_paths callback o c; unfold count; cbn;
    (split; [reflexivity|]);
    (split; [intros Hcb; try discriminate Hcb; split; reflexivity|]);
    intros thrown0 Hcb; try discriminate Hcb;
    try (injection Hcb as Hcb; subst thrown0);
    (split; [reflexivity|]); (split; [reflexivity|]);
    intros Hcalled; try discriminate Hcalled;
    repeat split; reflexivity.
Qed.

(** ** Clicks, renders and pending runs *)

Section PageFacts.

Variable is_email : string -> bool.
Variable callback : CallbackOutcome.

Lemma exec_handleSubmit_valid (values : AdminLoginValues) (w : World) :
  adminLoginSchema is_email values = [] ->
  exec (handleSubmit_with is_email callback values) w =
  mkWorld true (socketConnected w) (now w)
          (awaiting w ++ [onSubmit_resumed_with callback]) (timers w)
          (trace w ++ [SetIsLoading true;
                       ConsoleLog (AttemptInfo (email values)
                                     (truthy_string (password values)));
                       AdminApi_login (email values) (password values)]).
Proof.
  intros Hv. unfold handleSubmit_with. rewrite Hv. apply exec_onSubmit_with.
Qed.

Lemma exec_handleSubmit_invalid (values : AdminLoginValues) (w : World) :
  adminLoginSchema is_email values <> [] ->
  exec (handleSubmit_with is_email callback values) w =
  mkWorld (isLoading w) (socketConnected w) (now w) (awaiting w) (timers w)
          (trace w ++ map (fun fm => FormMessage (fst fm) (snd fm))
                          (adminLoginSchema is_email values)).
Proof.
  intros Hv. unfold handleSubmit_with.
  destruct (adminLoginSchema is_email values) as [|e errors] eqn:He;
    [congruence|].
  apply exec_show_errors.
Qed.

(** The bookkeeping of the loading flag survives every event of the page,
    whether or not clicks wait for the render. *)
Lemma page_step_accounted (pg : Page) (ev : PageEvent) :
  runs_accounted callback (world pg) ->
  runs_accounted callback (world (page_step is_email callback pg ev)).
Proof.
  intros (Hks & Hlogin & Hon & Hun & Hload). unfold runs_accounted.
  destruct ev as [values | | o | ms]; simpl.
  - destruct (buttonDisabled pg); [repeat split; assumption|]. simpl.
    destruct (adminLoginSchema is_email values) as [|err errors] eqn:Hv.
    + rewrite (exec_handleSubmit_valid values (world pg) Hv). simpl.
      rewrite !count_app, length_app.
      repeat match goal with
             | |- context [count ?f [?a; ?b; ?c]] =>
                 change (count f [a; b; c])
                   with (List.length (filter f [a; b; c])); cbn
             end.
      split; [apply Forall_app; split; [exact Hks | repeat constructor]|].
      repeat split; try lia.
      intros _ Hnil. apply app_eq_nil in Hnil. destruct Hnil as [_ Hnil].
      discriminate Hnil.
    + rewrite (exec_handleSubmit_invalid values (world pg))
        by (rewrite Hv; discriminate).
      simpl. rewrite !count_app, !count_form_messages by reflexivity.
      repeat split; try assumption; lia.
  - repeat split; assumption.
  - unfold settle. destruct (awaiting (world pg)) as [|k rest] eqn:Ha.
    + rewrite Ha. repeat split; assumption.
    + inversion Hks as [|k' rest' Hk Hrest]; subst k' rest' k.
      match goal with
      | |- context [exec (onSubmit_resumed_with callback o) ?w0] =>
          destruct (exec_resumed_with_accounting callback o w0)
            as (c' & tm' & new & Hw & _ & Hc1 & Hc2 & Hc3 & Hc4)
      end.
      rewrite Hw. simpl. rewrite !count_app. simpl in Hon.
      split; [exact Hrest|]. repeat split; lia.
  - rewrite elapse_spec. simpl. rewrite !count_app, !count_connects. simpl.
    repeat split; try assumption; lia.
Qed.

Lemma page_run_accounted (events : list PageEvent) (pg : Page) :
  runs_accounted callback (world pg) ->
  runs_accounted callback (world (page_run is_email callback events pg)).
Proof.
  revert pg. induction events as [|ev events IH]; intros pg Hacc; simpl.
  - exact Hacc.
  - apply IH. apply page_step_accounted. exact Hacc.
Qed.

Lemma initial_runs_accounted (connected : bool) :
  runs_accounted callback (world (initial_page connected)).
Proof.
  unfold runs_accounted, count. simpl.
  repeat split; try constructor; discriminate.
Qed.




(** X9. A second click that arrives before the page has re-rendered starts
    a second run: two login calls are made and two runs wait.  When the
    first call settles the loading flag is cleared, so the next render
    enables the button although the second call is still pending; the
    second run then completes on its own. *)
Theorem second_click_before_render (v1 v2 : AdminLoginValues)
        (o1 o2 : LoginOutcome) (pg : Page) :
  awaiting (world pg) = [] -> buttonDisabled pg = false ->
  adminLoginSchema is_email v1 = [] -> adminLoginSchema is_email v2 = [] ->
  let pg2 := page_run is_email callback [Click v1; Click v2] pg in
  let pg3 := page_run is_email callback [Settles o1; Rerender] pg2 in
  let pg4 := page_step is_email callback pg3 (Settles o2) in
  filter is_login_call (effects_since (world pg) (world pg2)) =
    [AdminApi_login (email v1) (password v1);
     AdminApi_login (email v2) (password v2)]
  /\ awaiting (world pg2) =
       [onSubmit_resumed_with callback; onSubmit_resumed_with callback]
  /\ isLoading (world pg3) = false /\ buttonDisabled pg3 = false
  /\ awaiting (world pg3) = [onSubmit_resumed_with callback]
  /\ awaiting (world pg4) = [] /\ isLoading (world pg4) = false.
Proof.
  intros Ha Hb Hv1 Hv2 pg2 pg3 pg4.
  assert (Hpg2 : pg2 =
    mkPage (mkWorld true (socketConnected (world pg)) (now (world pg))
              [onSubmit_resumed_with callback; onSubmit_resumed_with callback]
              (timers (world pg))
              (trace (world pg) ++
               [SetIsLoading true;
                ConsoleLog (AttemptInfo (email v1)
                              (truthy_string (password v1)));
                AdminApi_login (email v1) (password v1);
                SetIsLoading true;
                ConsoleLog (AttemptInfo (email v2)
                              (truthy_string (password v2)));
                AdminApi_login (email v2) (password v2)]))
           false).
  { subst pg2. unfold page_run. simpl. rewrite Hb. simpl.
    rewrite (exec_handleSubmit_valid v1 (world pg) Hv1).
    rewrite (exec_handleSubmit_valid v2 _ Hv2). simpl.
    rewrite Ha. flatten_trace. reflexivity. }
  assert (Hpg3 : exists c' tm' new,
    pg3 = mkPage (mkWorld false c' (now (world pg))
                    [onSubmit_resumed_with callback]
                    (timers (world pg) ++ tm') (trace (world pg2) ++ new))
                 false).
  { subst pg3. rewrite Hpg2. unfold page_run. simpl. unfold settle. simpl.
    match goal with
    | |- context [exec (onSubmit_resumed_with callback o1) ?w0] =>
        destruct (exec_resumed_with_accounting callback o1 w0)
          as (c' & tm' & new & Hw & _)
    end.
    rewrite Hw. simpl. exists c', tm', new. reflexivity. }
  destruct Hpg3 as (c' & tm' & new & Hpg3).
  split; [|split; [|split; [|split; [|split]]]].
  - rewrite Hpg2. simpl.
    erewrite effects_since_app; [|simpl; reflexivity]. reflexivity.
  - rewrite Hpg2. reflexivity.
  - rewrite Hpg3. reflexivity.
  - rewrite Hpg3. reflexivity.
  - rewrite Hpg3. reflexivity.
  - subst pg4. rewrite Hpg3. simpl. unfold settle. simpl.
    match goal with
    | |- context [exec (onSubmit_resumed_with callback o2) ?w0] =>
        destruct (exec_resumed_with_accounting callback o2 w0)
          as (c2 & tm2 & new2 & Hw2 & _)
    end.
    rewrite Hw2. split; reflexivity.
Qed.

(** X11. Whatever the order of clicks, renders, settled calls and clock
    advances, and whether the prop returns or throws: every
    [setIsLoading(true)] comes with one login call, [setIsLoading(false)]
    has occurred once per completed run, no exception has escaped a
    handler, and the loading flag is set only while a run is waiting. *)
Theorem login_calls_and_loading_flag (events : list PageEvent)
        (connected : bool) :
  let w := world (page_run is_email callback events (initial_page connected))
  in
  count is_login_call (trace w) = count is_loading_on (trace w)
  /\ count is_loading_on (trace w) =
     count is_loading_off (trace w) + List.length (awaiting w)
  /\ count is_unhandled (trace w) = 0
  /\ (isLoading w = true -> awaiting w <> []).
Proof.
  intros w.
  assert (Hacc : runs_accounted callback w).
  { apply page_run_accounted. apply initial_runs_accounted. }
  destruct Hacc as (_ & Hlogin & Hon & Hun & Hload).
  repeat split; assumption.
Qed.

End PageFacts.

Section PageAndStep.

Variable is_email : string -> bool.

(** [step] is the page that re-renders before each event. *)
Lemma step_is_page_step_after_render (pg : Page) (ev : Event) :
  world (page_run is_email Returns [Rerender; page_event ev] pg) =
  step is_email (world pg) ev.
Proof.
  destruct ev as [values | o | ms]; unfold page_run; simpl;
    try reflexivity.
  unfold submit. destruct (isLoading (world pg)); reflexivity.
Qed.

Lemma run_is_page_run_with_renders (events : list Event) (pg : Page) :
  world (page_run is_email Returns
           (flat_map (fun ev => [Rerender; page_event ev]) events) pg) =
  run is_email events (world pg).
Proof.
  revert pg. induction events as [|ev events IH]; intros pg; simpl.
  - reflexivity.
  - change (world (page_run is_email Returns
              (flat_map (fun ev => [Rerender; page_event ev]) events)
              (page_run is_email Returns [Rerender; page_event ev] pg)) =
            run is_email events (step is_email (world pg) ev)).
    rewrite IH, step_is_page_step_after_render. reflexivity.
Qed.

End PageAndStep.

(** ** Clicks and renders, evaluated *)



(** Scenario B with a prop that throws. *)
Lemma toasts_of_a_submission_scenario :
  failure_reports
    (effects_since (initial true)
       (settle (Resolved response_admin)
          (exec (onSubmit_with (Throws (ErrorObj "caller failed"))
                               demo_values)
                (initial true)))) =
  ["caller failed"].
Proof.
  exact (proj1 (proj2 (proj2 (proj2 (proj2
           (toasts_of_a_submission (Throws (ErrorObj "caller failed"))
              demo_values (Resolved response_admin) (initial true) eq_refl))
           (ErrorObj "caller failed") eq_refl)) eq_refl)).
Defined.

(** Two clicks on the first render. *)
Lemma second_click_before_render_scenario :
  filter is_login_call
    (effects_since (initial true)
       (world (page_run sample_is_email Returns
                 [Click demo_values; Click (mkValues "root@x.com" "secret2")]
                 (initial_page true)))) =
  [AdminApi_login "admin@x.com" "secret1";
   AdminApi_login "root@x.com" "secret2"].
Proof.
  exact (proj1 (second_click_before_render sample_is_email Returns
                  demo_values (mkValues "root@x.com" "secret2")
                  (Resolved response_admin) (Resolved response_admin)
                  (initial_page true) eq_refl eq_refl eq_refl eq_refl)).
Defined.
